(** * Reference-counted hand-off and lazily cached computations

    A shallow embedding of two pieces of the panel code:

    - [HistogramThread] (HistogramPanel.py): the pending slot of the
      histogram worker, with the reference counting done by
      [handle_data], [grab_data], [release_data] and [close];
    - [DataItemProcessor] (model/DataItemProcessor.py): the dirty-flag
      gated, single-flight cache around an asynchronous computation.

    Every method records what it does in a log of events (calls on the
    collaborating objects, lock operations, field writes), so that
    statements about counts and about the order of actions can be read off
    the log. *)

From Stdlib Require Import String List Arith Bool Lia.
Import ListNotations.

Set Implicit Arguments.

(* ===================================================================== *)
(** * HistogramThread *)
(* ===================================================================== *)

Module HistogramThread.

(** A subject (data item) is an object; only its identity matters here.
    A subject that is not [None] is taken to be truthy, which is what
    [if self.__data_item:] tests. *)
Definition Subject := nat.

(** What the methods do to the outside world and to the lock, in program
    order. *)
Inductive action : Type :=
| Lock                             (* with self.__mutex: enter *)
| Unlock                           (* with self.__mutex: leave *)
| Store (d : option Subject)       (* self.__data_item = d *)
| AddRef (s : Subject)             (* s.add_ref() *)
| RemoveRef (s : Subject)          (* s.remove_ref() *)
| Process (d : option Subject).    (* self.process_data(d) *)

Definition action_eqb (a b : action) : bool :=
  match a, b with
  | Lock, Lock | Unlock, Unlock => true
  | Store None, Store None => true
  | Store (Some x), Store (Some y) => Nat.eqb x y
  | AddRef x, AddRef y => Nat.eqb x y
  | RemoveRef x, RemoveRef y => Nat.eqb x y
  | Process None, Process None => true
  | Process (Some x), Process (Some y) => Nat.eqb x y
  | _, _ => false
  end.

(** The fields of the thread object that the methods use, and the log. *)
Record thread : Type := mkThread {
  data_item : option Subject;      (* self.__data_item, the pending slot *)
  actions : list action
}.

(** [__init__]: the slot starts empty. *)
Definition new_thread : thread := mkThread None [].

Definition act (e : action) (st : thread) : thread :=
  mkThread (data_item st) (actions st ++ [e]).

Definition set_data_item (d : option Subject) (st : thread) : thread :=
  mkThread d (actions st ++ [Store d]).

(** [if x: x.remove_ref()] *)
Definition remove_ref_if (d : option Subject) (st : thread) : thread :=
  match d with
  | Some s => act (RemoveRef s) st
  | None => st
  end.

(** [if x: x.add_ref()] *)
Definition add_ref_if (d : option Subject) (st : thread) : thread :=
  match d with
  | Some s => act (AddRef s) st
  | None => st
  end.

(** [handle_data]:
<<
    with self.__mutex:
        if self.__data_item:
            self.__data_item.remove_ref()
        self.__data_item = data_item
    if data_item:
        data_item.add_ref()
>> *)
Definition handle_data (d : option Subject) (st : thread) : thread :=
  let st1 := act Lock st in
  let st2 := remove_ref_if (data_item st1) st1 in
  let st3 := set_data_item d st2 in
  let st4 := act Unlock st3 in
  add_ref_if d st4.

(** [grab_data]:
<<
    with self.__mutex:
        data_item = self.__data_item
        self.__data_item = None
        return data_item
>> *)
Definition grab_data (st : thread) : option Subject * thread :=
  let st1 := act Lock st in
  let d := data_item st1 in
  let st2 := set_data_item None st1 in
  (d, act Unlock st2).

(** [process_data] hands the subject to the panel; it does no reference
    counting. *)
Definition process_data (d : option Subject) (st : thread) : thread :=
  act (Process d) st.

(** [release_data]: [data_item.remove_ref()]. *)
Definition release_data (s : Subject) (st : thread) : thread :=
  act (RemoveRef s) st.

(** Modelled from the spec: [ProcessingThread.close] (nion.swift.Decorators)
    is not part of the sources; it "signals the loop to terminate, waits for
    it to finish".  The passes the loop still makes are passes of the run
    that precedes [close], and the base class cannot reach the name-mangled
    slot, so this step leaves the fields of the thread object as they
    are. *)
Definition super_close (st : thread) : thread := st.

(** [close]:
<<
    super(HistogramThread, self).close()
    with self.__mutex:
        if self.__data_item:
            self.__data_item.remove_ref()
>> *)
Definition close (st : thread) : thread :=
  let st0 := super_close st in
  let st1 := act Lock st0 in
  let st2 := remove_ref_if (data_item st1) st1 in
  act Unlock st2.

(** Modelled from the spec: the loop of [ProcessingThread] is not part of
    the sources.  One pass takes the pending subject with [grab_data],
    invokes the compute step [process_data] with it, and releases a taken
    subject that is not none with [release_data]. *)
Definition worker_pass (st : thread) : thread :=
  let (d, st1) := grab_data st in
  let st2 := process_data d st1 in
  match d with
  | Some s => release_data s st2
  | None => st2
  end.

(** A run of the thread object: notifications and worker passes in some
    order. *)
Inductive call : Type :=
| Notify (d : option Subject)
| Pass.

Definition do_call (st : thread) (o : call) : thread :=
  match o with
  | Notify d => handle_data d st
  | Pass => worker_pass st
  end.

Definition do_calls (calls : list call) (st : thread) : thread :=
  fold_left do_call calls st.

(** Reading the log. *)
Definition is_add (s : Subject) (e : action) : bool :=
  match e with AddRef x => Nat.eqb x s | _ => false end.

Definition is_remove (s : Subject) (e : action) : bool :=
  match e with RemoveRef x => Nat.eqb x s | _ => false end.

Definition count (p : action -> bool) (l : list action) : nat :=
  length (filter p l).

Definition add_refs (s : Subject) (l : list action) : nat := count (is_add s) l.
Definition remove_refs (s : Subject) (l : list action) : nat := count (is_remove s) l.

(** [before a b l]: some occurrence of [a] in [l] comes before some
    occurrence of [b]. *)
Fixpoint occurs (a : action) (l : list action) : bool :=
  match l with
  | [] => false
  | e :: l' => action_eqb a e || occurs a l'
  end.

Fixpoint before (a b : action) (l : list action) : bool :=
  match l with
  | [] => false
  | e :: l' => (action_eqb a e && occurs b l') || before a b l'
  end.

(** The events a method adds to the log of [st]. *)
Definition actions_since (st st' : thread) : list action :=
  skipn (length (actions st)) (actions st').

(** The subjects the compute step was invoked on, none excluded. *)
Fixpoint processed (l : list action) : list Subject :=
  match l with
  | [] => []
  | Process (Some s) :: l' => s :: processed l'
  | _ :: l' => processed l'
  end.

(** A reference counter for subject [s] run over the log, as a mock subject
    would keep it: [None] once a reference is released that was not
    held. *)
Definition count_step (s : Subject) (held : option nat) (e : action) : option nat :=
  match held with
  | None => None
  | Some n =>
      match e with
      | AddRef x => if Nat.eqb x s then Some (S n) else Some n
      | RemoveRef x =>
          if Nat.eqb x s then
            match n with
            | 0 => None
            | S m => Some m
            end
          else Some n
      | _ => Some n
      end
  end.

Definition held_refs (s : Subject) (l : list action) : option nat :=
  fold_left (count_step s) l (Some 0).

(** The references on [s] that the pending slot accounts for. *)
Definition pending_refs (s : Subject) (d : option Subject) : nat :=
  match d with
  | Some x => if Nat.eqb x s then 1 else 0
  | None => 0
  end.

(** The same run with the worker's pass in two steps, so that
    notifications can fall between [grab_data] and [release_data]: the
    worker is idle, or holds what it took from the slot. *)
Record system : Type := mkSystem {
  object : thread;
  taken : option (option Subject)
}.

Inductive move : Type :=
| DoNotify (d : option Subject)
| DoGrab
| DoFinish.

Definition finish_pass (sys : system) : system :=
  match taken sys with
  | Some d =>
      let st1 := process_data d (object sys) in
      mkSystem (match d with
                | Some s => release_data s st1
                | None => st1
                end) None
  | None => sys
  end.

Definition do_move (sys : system) (m : move) : system :=
  match m with
  | DoNotify d => mkSystem (handle_data d (object sys)) (taken sys)
  | DoGrab =>
      match taken sys with
      | None => let (d, st1) := grab_data (object sys) in mkSystem st1 (Some d)
      | Some _ => sys
      end
  | DoFinish => finish_pass sys
  end.

Definition do_moves (moves : list move) (sys : system) : system :=
  fold_left do_move moves sys.

(** [close] waits for the worker, which ends its pass, and then releases
    what is pending. *)
Definition close_system (sys : system) : thread :=
  close (object (finish_pass sys)).



(** What a run maintains: the mock counter of [s] never went below zero and
    holds exactly the reference of the pending slot, and the calls of
    [add_ref] exceed those of [remove_ref] by that reference. *)
Definition balanced (s : Subject) (st : thread) : Prop :=
  held_refs s (actions st) = Some (pending_refs s (data_item st))
  /\ add_refs s (actions st) = remove_refs s (actions st) + pending_refs s (data_item st).

End HistogramThread.

(* ===================================================================== *)
(** * DataItemProcessor *)
(* ===================================================================== *)

Module DataItemProcessor.

(** Exceptions the methods can end with. *)
Inductive exn : Type :=
| AttributeError                   (* a method call on None *)
| NotImplementedError
| IndexError
| ComputeError (code : nat).       (* raised by get_calculated_data *)

Inductive outcome (A : Type) : Type :=
| Ret (a : A)
| Raise (e : exn).

Arguments Ret {A} a.
Arguments Raise {A} e.

Section Model.

(** Render context, raw upstream data and derived values are objects of
    the caller. *)
Variables UI Raw V : Type.

(** Calls on the owning item (the Subject); each carries the slot name. *)
Inductive item_call : Type :=
| IsCachedValueDirty
| SetCachedValueDirty
| SetCachedValue (v : option V)
| RemoveCachedValue
| AddSharedTask.

Inductive event : Type :=
| Acquire                               (* with self.__mutex: enter *)
| Release                               (* with self.__mutex: leave *)
| WriteInProgress (b : bool)            (* self.__in_progress = b *)
| FinishSet                             (* self.__finish_event.set() *)
| FinishClear                           (* self.__finish_event.clear() *)
| WriteCachedValue (v : option V)       (* self.__cached_value = v *)
| WriteDirty (d : option bool)          (* self.__cached_value_dirty = d *)
| Sleep                                 (* time.sleep(0.5) *)
| Compute (ui : UI) (data : Raw)        (* self.get_calculated_data(ui, data) *)
| PrintExc                              (* traceback.print_exc() *)
| ItemCall (name : string) (c : item_call)
| Completion (fn : nat) (v : option V). (* completion_fn(v) *)

(** What is fixed for an instance: the slot name given to [__init__] and
    the methods a subclass supplies. *)
Record processor : Type := mkProcessor {
  cache_property_name : string;
  get_calculated_data : UI -> Raw -> outcome (option V);
  get_default_data : option V
}.

(** What the instance finds around it when a method runs: whether the
    weakly referenced item is still there, what the item answers to
    [is_cached_value_dirty] after the calls made so far, and the data item
    returned by [get_data_item] ([closed], [data_outputs], and the [data]
    of each output object, by handle). *)
Record world : Type := mkWorld {
  item_alive : bool;
  subject_dirty : list event -> bool;
  closed : bool;
  data_outputs : list nat;
  output_data : nat -> option Raw
}.

(** The closure [lambda: load_data_on_thread(item)] given to
    [add_shared_task]: it captures [ui], the list [data_outputs] and
    [completion_fn]. *)
Record job : Type := mkJob {
  job_ui : UI;
  job_outputs : list nat;
  job_completion : option nat
}.

Record state : Type := mkState {
  env : world;
  in_progress : bool;                   (* self.__in_progress *)
  finish_event : bool;                  (* self.__finish_event.is_set() *)
  cached_value : option V;              (* self.__cached_value *)
  cached_value_dirty : option bool;     (* self.__cached_value_dirty *)
  tasks : list job;                     (* handed to add_shared_task, not started *)
  running : list job;                   (* started, not finished *)
  log : list event
}.

(** [__init__] *)
Definition init (w : world) : state :=
  mkState w false true None None [] [] [].

Definition set_env (w : world) (st : state) : state :=
  mkState w (in_progress st) (finish_event st) (cached_value st)
    (cached_value_dirty st) (tasks st) (running st) (log st).
Definition set_in_progress (b : bool) (st : state) : state :=
  mkState (env st) b (finish_event st) (cached_value st)
    (cached_value_dirty st) (tasks st) (running st) (log st).
Definition set_finish_event (b : bool) (st : state) : state :=
  mkState (env st) (in_progress st) b (cached_value st)
    (cached_value_dirty st) (tasks st) (running st) (log st).
Definition set_cached_value (v : option V) (st : state) : state :=
  mkState (env st) (in_progress st) (finish_event st) v
    (cached_value_dirty st) (tasks st) (running st) (log st).
Definition set_dirty (d : option bool) (st : state) : state :=
  mkState (env st) (in_progress st) (finish_event st) (cached_value st)
    d (tasks st) (running st) (log st).
Definition set_tasks (l : list job) (st : state) : state :=
  mkState (env st) (in_progress st) (finish_event st) (cached_value st)
    (cached_value_dirty st) l (running st) (log st).
Definition set_running (l : list job) (st : state) : state :=
  mkState (env st) (in_progress st) (finish_event st) (cached_value st)
    (cached_value_dirty st) (tasks st) l (log st).
Definition add_log (e : event) (st : state) : state :=
  mkState (env st) (in_progress st) (finish_event st) (cached_value st)
    (cached_value_dirty st) (tasks st) (running st) (log st ++ [e]).

(** ** The monad: state, and an exception that keeps the state reached *)

Definition M (A : Type) : Type := state -> outcome A * state.

Definition ret {A} (a : A) : M A := fun st => (Ret a, st).

Definition raise {A} (e : exn) : M A := fun st => (Raise e, st).

Definition bind {A B} (m : M A) (k : A -> M B) : M B :=
  fun st =>
    match m st with
    | (Ret a, st') => k a st'
    | (Raise e, st') => (Raise e, st')
    end.

(** [try: m  except Exception as e: h e] *)
Definition catch {A} (m : M A) (h : exn -> M A) : M A :=
  fun st =>
    match m st with
    | (Ret a, st') => (Ret a, st')
    | (Raise e, st') => h e st'
    end.

Definition gets {A} (f : state -> A) : M A := fun st => (Ret (f st), st).

Definition modify (f : state -> state) : M unit := fun st => (Ret tt, f st).

Definition emit (e : event) : M unit := modify (add_log e).

(** Assignments to the fields, each one logged. *)
Definition write_in_progress (b : bool) : M unit :=
  fun st => (Ret tt, set_in_progress b (add_log (WriteInProgress b) st)).

Definition write_cached_value (v : option V) : M unit :=
  fun st => (Ret tt, set_cached_value v (add_log (WriteCachedValue v) st)).

Definition write_dirty (d : option bool) : M unit :=
  fun st => (Ret tt, set_dirty d (add_log (WriteDirty d) st)).

Definition finish_event_set : M unit :=
  fun st => (Ret tt, set_finish_event true (add_log FinishSet st)).

Definition finish_event_clear : M unit :=
  fun st => (Ret tt, set_finish_event false (add_log FinishClear st)).

Declare Scope proc_scope.
Delimit Scope proc_scope with proc.
Notation "x <- m ;; k" := (bind m (fun x => k))
  (at level 61, m at next level, right associativity) : proc_scope.
Notation "m ;; k" := (bind m (fun _ => k))
  (at level 61, right associativity) : proc_scope.
Local Open Scope proc_scope.

(** [with self.__mutex: m]; the lock is released on every way out. *)
Definition with_mutex {A} (m : M A) : M A :=
  fun st =>
    match (emit Acquire ;; m) st with
    | (r, st') => (r, add_log Release st')
    end.

(** ** The methods *)

Variable P : processor.

(** [__get_item]: the target of the weak reference, or None.  Only
    whether there is a target matters to the methods. *)
Definition item : M bool := gets (fun st => item_alive (env st)).

(** [self.item.<method>(self.__cache_property_name, ...)]: an
    AttributeError when the item is None. *)
Definition on_item (c : item_call) : M unit :=
  alive <- item ;;
  if alive then emit (ItemCall (cache_property_name P) c)
  else raise AttributeError.

(** [self.item.is_cached_value_dirty(self.__cache_property_name)] *)
Definition item_is_cached_value_dirty : M bool :=
  answer <- gets (fun st => subject_dirty (env st) (log st)) ;;
  on_item IsCachedValueDirty ;;
  ret answer.

(** Modelled from the spec: [add_shared_task] belongs to the item, whose
    class is not part of the sources; it "schedules job for asynchronous
    execution".  The job joins the tasks that wait to be started. *)
Definition item_add_shared_task (j : job) : M unit :=
  on_item AddSharedTask ;;
  modify (fun st => set_tasks (tasks st ++ [j]) st).

(** [set_cached_value_dirty]:
<<
    self.item.set_cached_value_dirty(self.__cache_property_name)
    self.__cached_value_dirty = True
>> *)
Definition set_cached_value_dirty : M unit :=
  on_item SetCachedValueDirty ;;
  write_dirty (Some true).

(** [data_item_changed]: [self.set_cached_value_dirty()] *)
Definition data_item_changed : M unit := set_cached_value_dirty.

(** [item_property_changed]: [pass] *)
Definition item_property_changed (key value : nat) : M unit := ret tt.

(** The condition of [get_data]:
<<
    (self.__cached_value_dirty is not None and self.__cached_value_dirty)
      or self.item.is_cached_value_dirty(self.__cache_property_name)
>> *)
Definition flag_is_dirty (d : option bool) : bool :=
  match d with
  | Some b => b                          (* not None, and its value *)
  | None => false
  end.

Definition is_stale : M bool :=
  d <- gets cached_value_dirty ;;
  if flag_is_dirty d then ret true
  else item_is_cached_value_dirty.

(** [load_data_on_thread], up to and including the call of
    [completion_fn]; [data_outputs[0].data] is read when the job runs. *)
Definition load_data_body (j : job) : M unit :=
  emit Sleep ;;
  data <- match job_outputs j with
          | output :: _ => gets (fun st => output_data (env st) output)
          | [] => raise IndexError
          end ;;
  calculated_data <-
    match data with
    | Some d =>
        c <- catch
               (emit (Compute (job_ui j) d) ;;
                fun st => (get_calculated_data P (job_ui j) d, st))
               (fun e =>
                  emit PrintExc ;;
                  finish_event_set ;;
                  raise e) ;;
        on_item (SetCachedValue c) ;;
        write_cached_value c ;;
        write_dirty (Some false) ;;
        ret c
    | None => ret None
    end ;;
  calculated_data <-
    match calculated_data with
    | None =>
        on_item RemoveCachedValue ;;
        write_cached_value None ;;
        write_dirty None ;;
        ret (get_default_data P)
    | Some v => ret (Some v)
    end ;;
  match job_completion j with
  | Some fn => emit (Completion fn calculated_data)
  | None => ret tt
  end.

(** The end of [load_data_on_thread]:
<<
    with self.__mutex:
        self.__in_progress = False
    self.__finish_event.set()
>> *)
Definition load_data_end : M unit :=
  with_mutex (write_in_progress false) ;;
  finish_event_set.

Definition load_data_on_thread (j : job) : M unit :=
  load_data_body j ;;
  load_data_end.

(** [get_data_item]: "subclasses must implement"; the data item of the
    subclass is the one of the surroundings. *)
Definition get_data_item : M world := gets env.

(** [get_data]; [completion_fn] is a callback that returns normally, given
    by a number, or None. *)
Definition get_data (ui : UI) (completion_fn : option nat) : M (option V) :=
  stale <- is_stale ;;
  (if stale then
     _ <- item ;;                                         (* hold it *)
     data_item <- get_data_item ;;
     if negb (closed data_item) then
       let outs := data_outputs data_item in
       if length outs =? 1 then
         with_mutex
           (busy <- gets in_progress ;;
            if negb busy then
              write_in_progress true ;;
              finish_event_clear ;;
              item_add_shared_task (mkJob ui outs completion_fn)
            else ret tt)
       else ret tt
     else ret tt
   else ret tt) ;;
  calculated_data <- gets cached_value ;;
  match calculated_data with
  | Some v => ret (Some v)
  | None => ret (get_default_data P)
  end.

(** ** The dispatcher *)

(** Modelled from the spec: the executor behind [add_shared_task] is not
    part of the sources; it "schedules job for asynchronous execution".  A
    waiting job is started at some later time, on another thread, so that
    calls of the other methods can fall between the body of the job and its
    end.  A job whose body raises is over. *)
Definition start_task : M unit :=
  ts <- gets tasks ;;
  match ts with
  | [] => ret tt
  | j :: rest =>
      modify (fun st => set_running (running st ++ [j]) (set_tasks rest st)) ;;
      catch (load_data_body j)
            (fun e => modify (fun st => set_running (removelast (running st)) st) ;;
                      raise e)
  end.

(** Modelled from the spec: the executor lets a running job come to its
    end. *)
Definition finish_task : M unit :=
  rs <- gets running ;;
  match rs with
  | [] => ret tt
  | _ :: rest =>
      load_data_end ;;
      modify (set_running rest)
  end.

(** Modelled from the spec: the executor runs a waiting job from start to
    end with no other call in between. *)
Definition run_task : M unit :=
  ts <- gets tasks ;;
  match ts with
  | [] => ret tt
  | j :: rest =>
      modify (set_tasks rest) ;;
      load_data_on_thread j
  end.

(** Jobs handed to the dispatcher and not over yet. *)
Definition in_flight (st : state) : nat :=
  length (tasks st) + length (running st).


(** A run of one instance. *)
Inductive op : Type :=
| GetData (ui : UI) (completion_fn : option nat)
| SetCachedValueDirtyOp
| DataItemChanged
| ItemPropertyChanged (key value : nat)
| StartTask
| FinishTask
| RunTask
| World (w : world).

Definition exec {A} (m : M A) (st : state) : state := snd (m st).

Definition step (st : state) (o : op) : state :=
  match o with
  | GetData ui fn => exec (get_data ui fn) st
  | SetCachedValueDirtyOp => exec set_cached_value_dirty st
  | DataItemChanged => exec data_item_changed st
  | ItemPropertyChanged k v => exec (item_property_changed k v) st
  | StartTask => exec start_task st
  | FinishTask => exec finish_task st
  | RunTask => exec run_task st
  | World w => set_env w st
  end.

Definition run (ops : list op) (st : state) : state := fold_left step ops st.

(** [close]: [self.__finish_event.wait()].  The call returns once the
    finish event is set; [None] when it has to wait in this state. *)
Definition close (st : state) : option state :=
  if finish_event st then Some st else None.




(** No job in flight, and yet the flag up and the finish event clear. *)
Definition stuck (st : state) : Prop :=
  in_flight st = 0 /\ in_progress st = true /\ finish_event st = false.

(** ** Reading the log *)

(** Writes of the cache entry. *)
Definition writes_in_progress (e : event) : bool :=
  match e with WriteInProgress _ => true | _ => false end.

Definition writes_cache (e : event) : bool :=
  match e with WriteCachedValue _ | WriteDirty _ => true | _ => false end.

Definition writes_entry (e : event) : bool :=
  writes_in_progress e || writes_cache e.

Definition is_compute (e : event) : bool :=
  match e with Compute _ _ => true | _ => false end.

(** [locked p depth l]: every event of [l] that satisfies [p] happens while
    the lock is held, when [l] starts with the lock held [depth] times. *)
Fixpoint locked (p : event -> bool) (depth : nat) (l : list event) : bool :=
  match l with
  | [] => true
  | Acquire :: l' => locked p (S depth) l'
  | Release :: l' => locked p (pred depth) l'
  | e :: l' => (negb (p e) || negb (depth =? 0)) && locked p depth l'
  end.

(** [unlocked p depth l]: every event of [l] that satisfies [p] happens
    while the lock is not held. *)
Fixpoint unlocked (p : event -> bool) (depth : nat) (l : list event) : bool :=
  match l with
  | [] => true
  | Acquire :: l' => unlocked p (S depth) l'
  | Release :: l' => unlocked p (pred depth) l'
  | e :: l' => (negb (p e) || (depth =? 0)) && unlocked p depth l'
  end.

(** The events a method adds to the log of [st]. *)
Definition log_size (l : list event) : nat := length l.

Definition added (st st' : state) : list event :=
  skipn (log_size (log st)) (log st').

Definition has (p : event -> bool) (l : list event) : bool := existsb p l.

(** ** The staleness rule in the words of the specification

    "local shadow flag is dirty-or-unset OR the Subject reports the named
    cache slot dirty". *)
Definition dirty_or_unset (d : option bool) : bool :=
  match d with
  | None => true
  | Some b => b
  end.

Definition spec_is_stale (d : option bool) (subject_reports_dirty : bool) : bool :=
  dirty_or_unset d || subject_reports_dirty.

End Model.

Arguments IsCachedValueDirty {V}.
Arguments SetCachedValueDirty {V}.
Arguments SetCachedValue {V} v.
Arguments RemoveCachedValue {V}.
Arguments AddSharedTask {V}.
Arguments Acquire {UI Raw V}.
Arguments Release {UI Raw V}.
Arguments WriteInProgress {UI Raw V} b.
Arguments FinishSet {UI Raw V}.
Arguments FinishClear {UI Raw V}.
Arguments WriteCachedValue {UI Raw V} v.
Arguments WriteDirty {UI Raw V} d.
Arguments Sleep {UI Raw V}.
Arguments Compute {UI Raw V} ui data.
Arguments PrintExc {UI Raw V}.
Arguments ItemCall {UI Raw V} name c.
Arguments Completion {UI Raw V} fn v.
Arguments GetData {UI Raw V} ui completion_fn.
Arguments World {UI Raw V} w.
Arguments StartTask {UI Raw V}.
Arguments FinishTask {UI Raw V}.
Arguments RunTask {UI Raw V}.
Arguments SetCachedValueDirtyOp {UI Raw V}.
Arguments DataItemChanged {UI Raw V}.
Arguments ItemPropertyChanged {UI Raw V} key value.
Arguments writes_in_progress {UI Raw V} e.
Arguments writes_cache {UI Raw V} e.
Arguments writes_entry {UI Raw V} e.
Arguments is_compute {UI Raw V} e.

(** ** An instance to run the methods on

    Derived values are numbers; the computation doubles its input, fails on
    input 0, and the default value is 7.  The data item has one output. *)
Definition doubling : processor nat nat nat :=
  mkProcessor "histogram"
    (fun _ d =>
       match d with
       | 0 => Raise (ComputeError 1)
       | S _ => Ret (Some (2 * d))
       end)
    (Some 7).

Definition world_of (alive dirty data_item_closed : bool) (data : option nat)
  : world nat nat nat :=
  mkWorld alive (fun _ => dirty) data_item_closed [0] (fun _ => data).

(** An instance whose computation finds nothing to show; it keeps the
    default value of the base class, none. *)
Definition no_result : processor nat nat nat :=
  mkProcessor "thumbnail" (fun _ _ => Ret None) None.

(** Calls of the item that clear the cache slot. *)
Definition is_remove_cached_value {UI Raw V} (e : event UI Raw V) : bool :=
  match e with
  | ItemCall _ RemoveCachedValue => true
  | _ => false
  end.


End DataItemProcessor.

(* ===================================================================== *)
(** * Properties of HistogramThread *)
(* ===================================================================== *)

From Stdlib Require Import ZArith.

(** * Python lists with an integer index *)

Module PyList.
Section Ops.

Variable A : Type.

(** The position that [l[i]] and [del l[i]] address in a list of length
    [n]: a negative index counts from the end; [None] is an IndexError. *)
Definition position (n : nat) (i : Z) : option nat :=
  if (i <? 0)%Z then
    if (i + Z.of_nat n <? 0)%Z then None else Some (Z.to_nat (i + Z.of_nat n))
  else
    if (i <? Z.of_nat n)%Z then Some (Z.to_nat i) else None.

(** The position at which [l.insert(i, x)] puts [x]: a negative index
    counts from the end, and the result is clamped to the list. *)
Definition insert_position (n : nat) (i : Z) : nat :=
  if (i <? 0)%Z then Z.to_nat (Z.max 0 (i + Z.of_nat n))
  else Z.to_nat (Z.min i (Z.of_nat n)).

Definition insert (l : list A) (i : Z) (x : A) : list A :=
  firstn (insert_position (length l) i) l
  ++ x :: skipn (insert_position (length l) i) l.

Definition item (l : list A) (i : Z) : option A :=
  match position (length l) i with
  | Some k => nth_error l k
  | None => None
  end.

Definition delete (l : list A) (i : Z) : option (list A) :=
  match position (length l) i with
  | Some k => Some (firstn k l ++ skipn (S k) l)
  | None => None
  end.

End Ops.
End PyList.

(** * DataListController and DataGridController: the display items *)

Module DataListController.

Definition DisplayItem := nat.

(** The object returned by [needs_update_event.listen]. *)
Record listener : Type := mkListener {
  listener_id : nat;
  listens_to : DisplayItem
}.

Inductive failure : Type :=
| ListIndexError
| NoneAttributeError       (* a method of None *)
| NoneTypeError.           (* None subscripted, or iterated, or measured *)

Inductive effect : Type :=
| NewListener (d : DisplayItem) (id : nat)  (* d.needs_update_event.listen(...) *)
| ListenerClosed (id : nat)                 (* listener.close() *)
| ViewUpdated                               (* canvas_item.update() *)
| TaskAdded                                 (* self.__add_task(str(id(self)), ...) *)
| TasksCleared                              (* self.__clear_task(str(id(self))) *)
| SelectionListenerClosed
| MutexTaken
| MutexGiven.

Record controller : Type := mkController {
  display_items : option (list DisplayItem);    (* self.__display_items *)
  update_listeners : option (list listener);    (* self.__display_item_needs_update_listeners *)
  changed_display_items : bool;                 (* self.__changed_display_items *)
  selection_listener : bool;                    (* self.__selection_changed_listener is not None *)
  next_id : nat;                                (* identity of the next listener object *)
  effects : list effect
}.

Inductive result : Type :=
| Done (c : controller)
| Failed (e : failure) (c : controller).

Definition after (r : result) : controller :=
  match r with
  | Done c => c
  | Failed _ c => c
  end.

(** [__init__] *)
Definition new_controller : controller :=
  mkController (Some []) (Some []) false true 0 [].

Definition with_effect (e : effect) (c : controller) : controller :=
  mkController (display_items c) (update_listeners c) (changed_display_items c)
    (selection_listener c) (next_id c) (effects c ++ [e]).

(** [display_item_inserted]:
<<
    self.__display_items.insert(before_index, display_item)
    self.__display_item_needs_update_listeners.insert(before_index,
        display_item.needs_update_event.listen(self.__display_item_needs_update))
    self.__list_canvas_item.update()
>> *)
Definition display_item_inserted (d : DisplayItem) (before_index : Z)
    (c : controller) : result :=
  match display_items c with
  | None => Failed NoneAttributeError c
  | Some items =>
      let c1 := mkController (Some (PyList.insert items before_index d))
                  (update_listeners c) (changed_display_items c)
                  (selection_listener c) (next_id c) (effects c) in
      match update_listeners c1 with
      | None => Failed NoneAttributeError c1
      | Some ls =>
          let l := mkListener (next_id c1) d in
          let c2 := mkController (display_items c1)
                      (Some (PyList.insert ls before_index l))
                      (changed_display_items c1) (selection_listener c1)
                      (S (next_id c1))
                      (effects c1 ++ [NewListener d (next_id c1)]) in
          Done (with_effect ViewUpdated c2)
      end
  end.

(** [display_item_removed]:
<<
    self.__display_item_needs_update_listeners[index].close()
    del self.__display_item_needs_update_listeners[index]
    del self.__display_items[index]
    self.__list_canvas_item.update()
>> *)
Definition display_item_removed (index : Z) (c : controller) : result :=
  match update_listeners c with
  | None => Failed NoneTypeError c
  | Some ls =>
      match PyList.item ls index, PyList.delete ls index with
      | Some l, Some ls' =>
          let c1 := mkController (display_items c) (Some ls')
                      (changed_display_items c) (selection_listener c)
                      (next_id c)
                      (effects c ++ [ListenerClosed (listener_id l)]) in
          match display_items c1 with
          | None => Failed NoneTypeError c1
          | Some items =>
              match PyList.delete items index with
              | None => Failed ListIndexError c1
              | Some items' =>
                  Done (with_effect ViewUpdated
                          (mkController (Some items') (update_listeners c1)
                             (changed_display_items c1) (selection_listener c1)
                             (next_id c1) (effects c1)))
              end
          end
      | _, _ => Failed ListIndexError c
      end
  end.

(** [display_item_count]: [len(self.__display_items)] *)
Definition display_item_count (c : controller) : option nat :=
  match display_items c with
  | Some items => Some (length items)
  | None => None                      (* TypeError *)
  end.

(** [__display_item_needs_update]:
<<
    with self.__changed_display_items_mutex:
        self.__changed_display_items = True
        self.__add_task(str(id(self)), self.__update_display_items)
>> *)
Definition display_item_needs_update (c : controller) : controller :=
  let c1 := with_effect MutexTaken c in
  let c2 := mkController (display_items c1) (update_listeners c1) true
              (selection_listener c1) (next_id c1) (effects c1) in
  with_effect MutexGiven (with_effect TaskAdded c2).

(** [__update_display_items]:
<<
    with self.__changed_display_items_mutex:
        changed_display_items = self.__changed_display_items
        self.__changed_display_items = False
    if changed_display_items:
        self.__list_canvas_item.update()
>> *)
Definition update_display_items (c : controller) : controller :=
  let c1 := with_effect MutexTaken c in
  let changed := changed_display_items c1 in
  let c2 := mkController (display_items c1) (update_listeners c1) false
              (selection_listener c1) (next_id c1) (effects c1) in
  let c3 := with_effect MutexGiven c2 in
  if changed then with_effect ViewUpdated c3 else c3.

(** [close] of DataListController:
<<
    self.__clear_task(str(id(self)))
    self.__selection_changed_listener.close()
    self.__selection_changed_listener = None
    for display_item_needs_update_listener in self.__display_item_needs_update_listeners:
        display_item_needs_update_listener.close()
    self.__display_item_needs_update_listeners = None
    self.__display_items = None
>>
    (the callbacks set to None after that are not part of the state). *)
Definition close (c : controller) : result :=
  let c1 := with_effect TasksCleared c in
  if selection_listener c1 then
    let c2 := mkController (display_items c1) (update_listeners c1)
                (changed_display_items c1) false (next_id c1)
                (effects c1 ++ [SelectionListenerClosed]) in
    match update_listeners c2 with
    | None => Failed NoneTypeError c2
    | Some ls =>
        Done (mkController None None (changed_display_items c2) false
                (next_id c2)
                (effects c2 ++ map (fun l => ListenerClosed (listener_id l)) ls))
    end
  else Failed NoneAttributeError c1.

(** Calls that insert and remove display items. *)
Inductive change : Type :=
| Inserted (d : DisplayItem) (before_index : Z)
| Removed (index : Z)
| NeedsUpdate
| UpdateTask.

Definition apply_change (c : controller) (ch : change) : controller :=
  match ch with
  | Inserted d i => after (display_item_inserted d i c)
  | Removed i => after (display_item_removed i c)
  | NeedsUpdate => display_item_needs_update c
  | UpdateTask => update_display_items c
  end.

Definition apply_changes (chs : list change) (c : controller) : controller :=
  fold_left apply_change chs c.

(** How often listener [id] was closed. *)
Definition is_close_of (id : nat) (e : effect) : bool :=
  match e with
  | ListenerClosed x => Nat.eqb x id
  | _ => false
  end.

Definition times_closed (id : nat) (l : list effect) : nat :=
  length (filter (is_close_of id) l).

Definition is_view_update (e : effect) : bool :=
  match e with
  | ViewUpdated => true
  | _ => false
  end.

Definition view_updates (l : list effect) : nat :=
  length (filter is_view_update l).

Definition has_id (id : nat) (l : listener) : bool := Nat.eqb (listener_id l) id.

(** What the calls keep: the two lists are there, the listener at each
    position is the one made for the display item at that position, and
    each listener made so far is either in the list and open, or gone from
    the list and closed once. *)
Definition aligned (c : controller) : Prop :=
  match display_items c, update_listeners c with
  | Some items, Some ls =>
      map listens_to ls = items
      /\ forall id,
           times_closed id (effects c) + length (filter (has_id id) ls)
           = if id <? next_id c then 1 else 0
  | _, _ => False
  end.

End DataListController.

(** * DataBrowserController and the listeners of DataPanel *)

Module DataBrowserController.

Definition DataGroup := nat.

(** A data item: its identity, and its [category]. *)
Record DataItem : Type := mkDataItem {
  item_id : nat;
  category : string
}.

(** [a != b] on data items or None: objects are compared by identity. *)
Definition differs (a b : option DataItem) : bool :=
  match a, b with
  | None, None => false
  | Some x, Some y => negb (Nat.eqb (item_id x) (item_id y))
  | _, _ => true
  end.

Definition group_differs (a b : option DataGroup) : bool :=
  match a, b with
  | None, None => false
  | Some x, Some y => negb (Nat.eqb x y)
  | _, _ => true
  end.

Definition filter_differs (a b : option string) : bool :=
  match a, b with
  | None, None => false
  | Some x, Some y => negb (String.eqb x y)
  | _, _ => true
  end.

(** Calls on the document controller and on the widgets of the panel, and
    events fired. *)
Inductive call : Type :=
| SetDataGroupOrFilter (g : option DataGroup) (f : option string)
| Periodic
| FilterChangedFired (g : option DataGroup) (f : option string)
| SelectionChangedFired (d : option DataItem)
| NotifySelectedDataItem (d : option DataItem)
| LibraryClearCurrentRow
| LibrarySetCurrentRow (row : Z)            (* set_current_row(row, -1, 0) *)
| GroupClearCurrentRow
| GroupSetCurrentRow (g : DataGroup)        (* set_current_row at the index of g *)
| ListSetSelectedIndex (index : nat)
| ListMakeSelectionVisible
| ListSelectionClear
| GridSetSelectedIndex (index : nat)
| GridMakeSelectionVisible
| GridSelectionClear.

Record browser : Type := mkBrowser {
  focused : bool;                              (* self.__focused *)
  data_group : option DataGroup;               (* self.__data_group *)
  current_data_item : option DataItem;         (* self.__data_item *)
  filter_id : option string;                   (* self.__filter_id *)
  selected_display_items : list DataItem;      (* self.__selected_display_items, by data item *)
  blocked : bool;                              (* self.__blocked *)
  panel_blocked : bool;                        (* DataPanel.__blocked *)
  panel_display_items : list DataItem;         (* DataPanel.__display_items, by data item *)
  view_index : nat;                            (* data_view_widget.current_index *)
  calls : list call
}.

Definition record_call (e : call) (b : browser) : browser :=
  mkBrowser (focused b) (data_group b) (current_data_item b) (filter_id b)
    (selected_display_items b) (blocked b) (panel_blocked b)
    (panel_display_items b) (view_index b) (calls b ++ [e]).

Definition set_blocked (v : bool) (b : browser) : browser :=
  mkBrowser (focused b) (data_group b) (current_data_item b) (filter_id b)
    (selected_display_items b) v (panel_blocked b)
    (panel_display_items b) (view_index b) (calls b).

Definition set_panel_blocked (v : bool) (b : browser) : browser :=
  mkBrowser (focused b) (data_group b) (current_data_item b) (filter_id b)
    (selected_display_items b) (blocked b) v
    (panel_display_items b) (view_index b) (calls b).

Definition set_group_and_filter (g : option DataGroup) (f : option string)
    (b : browser) : browser :=
  mkBrowser (focused b) g (current_data_item b) f
    (selected_display_items b) (blocked b) (panel_blocked b)
    (panel_display_items b) (view_index b) (calls b).

Definition set_current_data_item (d : option DataItem) (b : browser) : browser :=
  mkBrowser (focused b) (data_group b) d (filter_id b)
    (selected_display_items b) (blocked b) (panel_blocked b)
    (panel_display_items b) (view_index b) (calls b).

Definition set_selected_display_items (l : list DataItem) (b : browser) : browser :=
  mkBrowser (focused b) (data_group b) (current_data_item b) (filter_id b)
    l (blocked b) (panel_blocked b)
    (panel_display_items b) (view_index b) (calls b).

Definition set_focused_field (v : bool) (b : browser) : browser :=
  mkBrowser v (data_group b) (current_data_item b) (filter_id b)
    (selected_display_items b) (blocked b) (panel_blocked b)
    (panel_display_items b) (view_index b) (calls b).

(** ** The listeners of DataPanel *)

(** [DataPanel.__data_panel_filter_changed] *)
Definition data_panel_filter_changed (g : option DataGroup) (f : option string)
    (b : browser) : browser :=
  match g with
  | Some dg =>
      record_call (GroupSetCurrentRow dg) (record_call LibraryClearCurrentRow b)
  | None =>
      let b1 := record_call GroupClearCurrentRow b in
      if negb (filter_differs f (Some "latest-session"%string)) then
        record_call (LibrarySetCurrentRow 2) b1
      else if negb (filter_differs f (Some "temporary"%string)) then
        record_call (LibrarySetCurrentRow 1) b1
      else
        record_call (LibrarySetCurrentRow 0) b1
  end.

(** The loop of [__data_panel_selection_changed]:
<<
    data_item_index = -1
    for index in range(len(self.__display_items)):
        if data_item == self.__display_items[index].data_item:
            data_item_index = index
            break
>> *)
Fixpoint data_item_index_from (index : nat) (d : option DataItem)
    (items : list DataItem) : option nat :=
  match items with
  | [] => None                                   (* -1 *)
  | x :: rest =>
      if negb (differs d (Some x)) then Some index
      else data_item_index_from (S index) d rest
  end.

(** [DataPanel.__data_panel_selection_changed] *)
Definition data_panel_selection_changed (d : option DataItem) (b : browser)
    : browser :=
  let data_item_index := data_item_index_from 0 d (panel_display_items b) in
  if Nat.eqb (view_index b) 0 then
    match data_item_index with
    | Some k => record_call ListMakeSelectionVisible
                  (record_call (ListSetSelectedIndex k) b)
    | None => record_call ListSelectionClear b
    end
  else
    match data_item_index with
    | Some k => record_call GridMakeSelectionVisible
                  (record_call (GridSetSelectedIndex k) b)
    | None => record_call GridSelectionClear b
    end.

(** ** DataBrowserController *)

(** [filter_changed_event.fire] and [selection_changed_event.fire], with
    the listeners that DataPanel registers in its [__init__]; what the
    widgets call back in turn is a call of its own. *)
Definition fire_filter_changed (g : option DataGroup) (f : option string)
    (b : browser) : browser :=
  data_panel_filter_changed g f (record_call (FilterChangedFired g f) b).

Definition fire_selection_changed (d : option DataItem) (b : browser) : browser :=
  data_panel_selection_changed d (record_call (SelectionChangedFired d) b).

(** [set_data_browser_selection] *)
Definition set_data_browser_selection (g : option DataGroup)
    (d : option DataItem) (f : option string) (b : browser) : browser :=
  if negb (blocked b) then
    let b1 := set_blocked true b in
    let f' := match d with
              | Some x => if String.eqb (category x) "temporary" then
                            Some "temporary"%string
                          else f
              | None => f
              end in
    let changed := group_differs g (data_group b1)
                   || filter_differs f' (filter_id b1) in
    let b2 := if changed then
                fire_filter_changed g f'
                  (record_call Periodic
                     (record_call (SetDataGroupOrFilter g f')
                        (set_group_and_filter g f' b1)))
              else b1 in
    let item_changed := differs (current_data_item b2) d in
    let b3 := if item_changed then set_current_data_item d b2 else b2 in
    let b4 := if changed || item_changed then fire_selection_changed d b3
              else b3 in
    set_blocked false b4
  else b.

(** The [focused] setter. *)
Definition set_focused (v : bool) (b : browser) : browser :=
  set_focused_field v
    (if v then record_call (NotifySelectedDataItem (current_data_item b)) b
     else b).

(** The [selected_data_items] and [data_item] properties. *)
Definition selected_data_items (b : browser) : list DataItem :=
  if focused b then selected_display_items b else [].

Definition data_item_property (b : browser) : option DataItem :=
  if focused b then current_data_item b else None.

(** [selected_display_items_changed] *)
Definition selected_display_items_changed (display_items : list DataItem)
    (b : browser) : browser :=
  let (d, b1) :=
    match display_items with
    | [] => (None, set_data_browser_selection (data_group b) None (filter_id b) b)
    | [x] => (Some x,
              set_data_browser_selection (data_group b) (Some x) (filter_id b) b)
    | _ => (None, b)
    end in
  let b2 := if focused b1 then record_call (NotifySelectedDataItem d) b1
            else b1 in
  set_selected_display_items display_items b2.

(** ** The selection handlers of DataPanel *)

(** [library_widget_selection_changed]; an entry of [selected_indexes] is
    (row, parent row, parent id). *)
Definition library_widget_selection_changed (selected_indexes : list (Z * Z * Z))
    (b : browser) : browser :=
  if negb (panel_blocked b) then
    let b1 := set_panel_blocked true b in
    let index := match selected_indexes with
                 | (row, _, _) :: _ => row
                 | [] => (-1)%Z
                 end in
    let b2 :=
      if (index =? 2)%Z then
        set_data_browser_selection None None (Some "latest-session"%string) b1
      else if (index =? 1)%Z then
        set_data_browser_selection None None (Some "temporary"%string) b1
      else
        set_data_browser_selection None None None b1 in
    set_panel_blocked false b2
  else b.

(** [data_group_widget_selection_changed], with the data group that
    [get_data_group] finds for the first selected index, if any. *)
Definition data_group_widget_selection_changed (g : option DataGroup)
    (b : browser) : browser :=
  if negb (panel_blocked b) then
    set_panel_blocked false
      (set_data_browser_selection g None None (set_panel_blocked true b))
  else b.

(** The calls made since [b]. *)
Definition calls_since (b b' : browser) : list call :=
  skipn (length (calls b)) (calls b').

Definition library_rows (l : list call) : list Z :=
  flat_map (fun e => match e with LibrarySetCurrentRow r => [r] | _ => [] end) l.

(** The filter that [set_data_browser_selection] goes by. *)
Definition effective_filter (d : option DataItem) (f : option string)
    : option string :=
  match d with
  | Some x => if String.eqb (category x) "temporary" then Some "temporary"%string
              else f
  | None => f
  end.

(** The fields, without the calls. *)
Definition fields (b : browser) :=
  (focused b, data_group b, current_data_item b, filter_id b,
   selected_display_items b, blocked b, panel_blocked b,
   panel_display_items b, view_index b).

(** [b'] has the calls of [b] and more, the library rows among them
    being [rows]. *)
Definition adds (b b' : browser) (rows : list Z) : Prop :=
  exists X, calls b' = calls b ++ X /\ library_rows X = rows.

(** A controller and a panel as [__init__] leaves them, with no display
    item and the list view shown. *)
Definition new_browser : browser :=
  mkBrowser false None None None [] false false [] 0 [].

End DataBrowserController.

From Stdlib Require Floats Uint63.

(** * HistogramPanel: the panel around the thread *)

Module HistogramPanel.

Definition Subject := HistogramThread.Subject.

(** The display limits are Python numbers, floating point numbers once
    the mouse has been used; the panel divides, adds, subtracts,
    multiplies and compares them.  They are kept abstract: a type with
    these operations. *)
Record numbers : Type := mkNumbers {
  num : Type;
  zero : num;                          (* 0 *)
  one : num;                           (* 1 *)
  quotient : Z -> Z -> num;            (* float(x) / width, width not 0 *)
  minus : num -> num -> num;
  plus : num -> num -> num;
  times : num -> num -> num;
  less : num -> num -> bool            (* a < b *)
}.

Section Panel.

Variable N : numbers.

Definition limits : Type := (num N * num N)%type.

(** Python's [min(a, b)] and [max(a, b)]: the first argument unless the
    second is smaller, respectively greater. *)
Definition minimum (a b : num N) : num N := if less N b a then b else a.

Definition maximum (a b : num N) : num N := if less N a b then b else a.

(** What the panel finds around it: the canvas widget and its size, and
    for each data item what [get_histogram_data] returns (none, or an
    array of some length) and its [display_range]. *)
Record surroundings : Type := mkSurroundings {
  has_widget : bool;                           (* self.ui and self.widget *)
  canvas_width : Z;
  canvas_height : Z;
  histogram_length : Subject -> option nat;
  display_range : Subject -> limits
}.

Inductive drawing : Type :=
| HistogramDrawn (s : Subject) (width height : Z)   (* the histogram layer redrawn *)
| AdornmentsDrawn (l : limits) (width height : Z)   (* the adornments layer redrawn *)
| CanvasDrawn                                       (* self.canvas.draw() *)
| ItemDisplayLimitsSet (s : Subject) (l : option limits)  (* data_item.display_limits = l *)
| ListenerRemoved                                   (* document_controller.remove_listener(self) *)
| PanelClosed.                                      (* super(HistogramPanel, self).close() *)

Inductive raised : Type :=
| ZeroDivisionError
| StartAttributeError.                 (* self.start read before it was set *)

Record panel : Type := mkPanel {
  thread_object : HistogramThread.thread;     (* the HistogramThread made in __init__ *)
  has_thread : bool;                          (* self.__histogram_thread is not None *)
  shown_data_item : option Subject;           (* self.__data_item *)
  display_limits : limits;                    (* self.__display_limits *)
  pressed : bool;                             (* self.pressed *)
  start : option (num N);                     (* self.start, once set *)
  histogram_dirty : bool;
  adornments_dirty : bool;
  drawings : list drawing
}.

(** [__init__] *)
Definition new_panel : panel :=
  mkPanel HistogramThread.new_thread true None (zero N, one N) false None
    true true [].

Definition draw (e : drawing) (p : panel) : panel :=
  mkPanel (thread_object p) (has_thread p) (shown_data_item p)
    (display_limits p) (pressed p) (start p) (histogram_dirty p)
    (adornments_dirty p) (drawings p ++ [e]).

Definition set_dirty_flags (h a : bool) (p : panel) : panel :=
  mkPanel (thread_object p) (has_thread p) (shown_data_item p)
    (display_limits p) (pressed p) (start p) h a (drawings p).

Definition set_limits (l : limits) (p : panel) : panel :=
  mkPanel (thread_object p) (has_thread p) (shown_data_item p)
    l (pressed p) (start p) (histogram_dirty p) (adornments_dirty p)
    (drawings p).

Definition set_pressed (v : bool) (p : panel) : panel :=
  mkPanel (thread_object p) (has_thread p) (shown_data_item p)
    (display_limits p) v (start p) (histogram_dirty p) (adornments_dirty p)
    (drawings p).

Definition set_start (s : num N) (p : panel) : panel :=
  mkPanel (thread_object p) (has_thread p) (shown_data_item p)
    (display_limits p) (pressed p) (Some s) (histogram_dirty p)
    (adornments_dirty p) (drawings p).

Definition set_shown (d : option Subject) (p : panel) : panel :=
  mkPanel (thread_object p) (has_thread p) d
    (display_limits p) (pressed p) (start p) (histogram_dirty p)
    (adornments_dirty p) (drawings p).

Definition set_thread (t : HistogramThread.thread) (present : bool) (p : panel)
    : panel :=
  mkPanel t present (shown_data_item p)
    (display_limits p) (pressed p) (start p) (histogram_dirty p)
    (adornments_dirty p) (drawings p).

Variable E : surroundings.

(** [__make_histogram]: drawn when dirty and the data item has histogram
    data of positive length. *)
Definition make_histogram (p : panel) : panel :=
  let histogram_data :=
    match shown_data_item p with
    | Some s => option_map (fun n => (s, n)) (histogram_length E s)
    | None => None
    end in
  match histogram_data with
  | Some (s, n) =>
      if histogram_dirty p && (0 <? n) then
        draw (HistogramDrawn s (canvas_width E) (canvas_height E))
          (set_dirty_flags false (adornments_dirty p) p)
      else p
  | None => p
  end.

(** [__make_adornments] *)
Definition make_adornments (p : panel) : panel :=
  if has_widget E && adornments_dirty p then
    draw (AdornmentsDrawn (display_limits p) (canvas_width E) (canvas_height E))
      (set_dirty_flags (histogram_dirty p) false p)
  else p.

(** [__update_canvas] *)
Definition update_canvas (p : panel) : panel :=
  if has_widget E then draw CanvasDrawn p else p.

(** [__update_histogram] *)
Definition update_histogram (p : panel) : panel :=
  if has_widget E then update_canvas (make_adornments (make_histogram p))
  else p.

(** [__set_display_limits] *)
Definition set_display_limits (l : limits) (p : panel) : panel :=
  update_histogram
    (set_dirty_flags (histogram_dirty p) true (set_limits l p)).

(** [size_changed] *)
Definition size_changed (width height : Z) (p : panel) : panel :=
  if (0 <? width)%Z && (0 <? height)%Z then
    update_histogram (set_dirty_flags true (adornments_dirty p) p)
  else p.

(** [mouse_double_clicked] *)
Definition mouse_double_clicked (p : panel) : panel :=
  let p1 := set_display_limits (zero N, one N) p in
  match shown_data_item p1 with
  | Some s => draw (ItemDisplayLimitsSet s None) p1
  | None => p1
  end.

(** [mouse_pressed] *)
Definition mouse_pressed (x : Z) (p : panel) : option raised * panel :=
  let p1 := set_pressed true p in
  if (canvas_width E =? 0)%Z then (Some ZeroDivisionError, p1)
  else
    let s := quotient N x (canvas_width E) in
    (None, set_display_limits (s, s) (set_start s p1)).

(** [mouse_released] *)
Definition mouse_released (p : panel) : panel :=
  let p1 := set_pressed false p in
  let display_limit_range :=
    minus N (snd (display_limits p1)) (fst (display_limits p1)) in
  match shown_data_item p1 with
  | Some s =>
      if less N (zero N) display_limit_range
         && less N display_limit_range (one N) then
        let (data_min, data_max) := display_range E s in
        draw (ItemDisplayLimitsSet s
                (Some (plus N data_min
                         (times N (fst (display_limits p1))
                            (minus N data_max data_min)),
                       plus N data_min
                         (times N (snd (display_limits p1))
                            (minus N data_max data_min)))))
          p1
      else p1
  | None => p1
  end.

(** [mouse_position_changed] *)
Definition mouse_position_changed (x : Z) (p : panel) : option raised * panel :=
  if pressed p then
    if (canvas_width E =? 0)%Z then (Some ZeroDivisionError, p)
    else
      let current := quotient N x (canvas_width E) in
      match start p with
      | Some s =>
          (None, set_display_limits (minimum s current, maximum s current) p)
      | None => (Some StartAttributeError, p)
      end
  else (None, p).

(** [_set_data_item] *)
Definition _set_data_item (d : option Subject) (p : panel) : panel :=
  let p1 := set_shown d p in
  let p2 := if negb (pressed p1) then set_limits (zero N, one N) p1 else p1 in
  update_histogram (set_dirty_flags true true p2).

(** Modelled from the spec: [update_data] of ProcessingThread is not part
    of the sources; it hands the data item to [handle_data] ("notify") and
    wakes the worker. *)
Definition update_data (d : option Subject) (t : HistogramThread.thread)
    : HistogramThread.thread :=
  HistogramThread.handle_data d t.

(** [selected_data_item_changed] *)
Definition selected_data_item_changed (d : option Subject) (p : panel) : panel :=
  if has_thread p then set_thread (update_data d (thread_object p)) true p
  else p.

(** [close] *)
Definition close (p : panel) : panel :=
  let p1 := set_thread (HistogramThread.close (thread_object p)) false p in
  let p2 := selected_data_item_changed None p1 in
  draw PanelClosed (draw ListenerRemoved p2).

(** Modelled from the spec: a pass of the worker (the loop of
    ProcessingThread is not part of the sources) takes the pending data
    item, hands it to [process_data], which is [_set_data_item] of the
    panel, and releases it. *)
Definition worker_pass (p : panel) : panel :=
  let d := HistogramThread.data_item (thread_object p) in
  _set_data_item d
    (set_thread (HistogramThread.worker_pass (thread_object p)) (has_thread p) p).

End Panel.

Arguments HistogramDrawn {N} s width height.
Arguments AdornmentsDrawn {N} l width height.
Arguments CanvasDrawn {N}.
Arguments ItemDisplayLimitsSet {N} s l.
Arguments ListenerRemoved {N}.
Arguments PanelClosed {N}.

(** What happens to an open panel. *)
Inductive happening (N : numbers) : Type :=
| Selected (d : option Subject)        (* selected_data_item_changed *)
| WorkerPass
| Pressed (x : Z)
| Moved (x : Z)
| Released
| DoubleClicked
| Resized (width height : Z)
| Surroundings (E : surroundings N).

Arguments WorkerPass {N}.
Arguments Released {N}.
Arguments DoubleClicked {N}.
Arguments Selected {N} d.
Arguments Pressed {N} x.
Arguments Moved {N} x.
Arguments Resized {N} width height.

Definition happen (N : numbers) (st : surroundings N * panel N)
    (h : happening N) : surroundings N * panel N :=
  let (E, p) := st in
  match h with
  | Selected d => (E, selected_data_item_changed d p)
  | WorkerPass => (E, worker_pass E p)
  | Pressed x => (E, snd (mouse_pressed E x p))
  | Moved x => (E, snd (mouse_position_changed E x p))
  | Released => (E, mouse_released E p)
  | DoubleClicked => (E, mouse_double_clicked E p)
  | Resized w h => (E, size_changed E w h p)
  | Surroundings E' => (E', p)
  end.

Definition happenings (N : numbers) (hs : list (happening N))
    (st : surroundings N * panel N) : surroundings N * panel N :=
  fold_left (@happen N) hs st.

(** What the thread object is asked to do by a happening. *)
Definition thread_call (N : numbers) (h : happening N)
    : list HistogramThread.call :=
  match h with
  | Selected d => [HistogramThread.Notify d]
  | WorkerPass => [HistogramThread.Pass]
  | _ => []
  end.

Definition is_item_limits (N : numbers) (e : drawing N) : bool :=
  match e with
  | ItemDisplayLimitsSet _ _ => true
  | _ => false
  end.

Definition is_histogram_drawn (N : numbers) (e : drawing N) : bool :=
  match e with
  | HistogramDrawn _ _ _ => true
  | _ => false
  end.

Definition drawn_since (N : numbers) (p p' : panel N) : list (drawing N) :=
  skipn (length (drawings p)) (drawings p').

(** Python's [float(x)] for an integer below 2^63 in size, as mouse
    positions and canvas sizes are. *)
Definition float_of_Z (x : Z) : PrimFloat.float :=
  match x with
  | Z0 => PrimFloat.zero
  | Zpos _ => PrimFloat.of_uint63 (Uint63.of_Z x)
  | Zneg p => PrimFloat.opp (PrimFloat.of_uint63 (Uint63.of_Z (Zpos p)))
  end.

(** Python's floating point numbers: IEEE 754 binary64. *)
Definition floats : numbers :=
  mkNumbers PrimFloat.zero PrimFloat.one
    (fun x width => PrimFloat.div (float_of_Z x) (float_of_Z width))
    PrimFloat.sub PrimFloat.add PrimFloat.mul PrimFloat.ltb.

(** The thread object of the panel and whether the panel still has it. *)
Definition thread_part {N} (p : panel N) : HistogramThread.thread * bool :=
  (thread_object p, has_thread p).

(** What [__update_histogram] leaves alone, and that it never writes the
    display limits of a data item. *)
Definition repaints {N} (p p' : panel N) : Prop :=
  shown_data_item p' = shown_data_item p
  /\ display_limits p' = display_limits p
  /\ pressed p' = pressed p
  /\ start p' = start p
  /\ exists r, drawings p' = drawings p ++ r /\ filter (@is_item_limits N) r = [].

(** A canvas of 200 by 100 showing data items whose histogram has 256
    entries and whose display range is 0 to 100. *)
Definition canvas_200 : surroundings floats :=
  @mkSurroundings floats true 200 100 (fun _ => Some 256)
    (fun _ => (PrimFloat.zero, float_of_Z 100)).

Definition canvas_200_no_data : surroundings floats :=
  @mkSurroundings floats true 200 100 (fun _ => None)
    (fun _ => (PrimFloat.zero, float_of_Z 100)).

Definition canvas_empty : surroundings floats :=
  @mkSurroundings floats true 0 0 (fun _ => None)
    (fun _ => (PrimFloat.zero, float_of_Z 100)).

End HistogramPanel.

(** * DataPanel: the display items of the panel and of its two controllers *)

Module DataPanel.

(** A data item, by identity. *)
Definition DataItemId := nat.

Inductive panel_effect : Type :=
| DisplayItemMade (d : DataListController.DisplayItem) (data_item : DataItemId)
    (* DisplayItem(data_item, dispatch_task, ui) *)
| DisplayItemClosed (d : DataListController.DisplayItem).
    (* display_item.close() *)

Inductive panel_failure : Type :=
| InController (e : DataListController.failure)   (* raised in a controller *)
| PanelIndexError
| PanelNoneError                  (* a method, a subscript or a loop on None *)
| GridAssertionError              (* assert not self.__closed *)
| ClosedDisplayItemError.         (* close() of a closed display item: its
                                     listener is None, an AttributeError *)

Record data_panel : Type := mkDataPanel {
  item_list : option (list DataListController.DisplayItem);
                                                      (* self.__display_items *)
  data_list_controller : DataListController.controller;
  has_list_controller : bool;                         (* self.data_list_controller is not None *)
  data_grid_controller : DataListController.controller;
  has_grid_controller : bool;                         (* self.data_grid_controller is not None *)
  grid_closed : bool;                                 (* __closed of the grid controller *)
  made : nat;                                         (* identity of the next DisplayItem *)
  panel_log : list panel_effect
}.

Inductive outcome : Type :=
| Fine (p : data_panel)
| Raised (e : panel_failure) (p : data_panel).

Definition panel_after (r : outcome) : data_panel :=
  match r with
  | Fine p => p
  | Raised _ p => p
  end.

(** The display item part of [__init__], before the items of the binding
    are inserted. *)
Definition new_data_panel : data_panel :=
  mkDataPanel (Some []) DataListController.new_controller true
    DataListController.new_controller true false 0 [].

Definition set_item_list (l : option (list DataListController.DisplayItem))
    (p : data_panel) : data_panel :=
  mkDataPanel l (data_list_controller p) (has_list_controller p)
    (data_grid_controller p) (has_grid_controller p) (grid_closed p)
    (made p) (panel_log p).

Definition set_list_controller (c : DataListController.controller)
    (present : bool) (p : data_panel) : data_panel :=
  mkDataPanel (item_list p) c present
    (data_grid_controller p) (has_grid_controller p) (grid_closed p)
    (made p) (panel_log p).

Definition set_grid_controller (c : DataListController.controller)
    (present : bool) (p : data_panel) : data_panel :=
  mkDataPanel (item_list p) (data_list_controller p) (has_list_controller p)
    c present (grid_closed p) (made p) (panel_log p).

Definition set_grid_closed (v : bool) (p : data_panel) : data_panel :=
  mkDataPanel (item_list p) (data_list_controller p) (has_list_controller p)
    (data_grid_controller p) (has_grid_controller p) v (made p) (panel_log p).

Definition logged (e : panel_effect) (p : data_panel) : data_panel :=
  mkDataPanel (item_list p) (data_list_controller p) (has_list_controller p)
    (data_grid_controller p) (has_grid_controller p) (grid_closed p)
    (made p) (panel_log p ++ [e]).

Definition is_close_of_item (d : DataListController.DisplayItem)
    (e : panel_effect) : bool :=
  match e with
  | DisplayItemClosed x => Nat.eqb x d
  | _ => false
  end.

(** [DisplayItem(data_item, dispatch_task, ui)]: a new object. *)
Definition make_display_item (data_item : DataItemId) (p : data_panel)
    : DataListController.DisplayItem * data_panel :=
  (made p,
   mkDataPanel (item_list p) (data_list_controller p) (has_list_controller p)
     (data_grid_controller p) (has_grid_controller p) (grid_closed p)
     (S (made p)) (panel_log p ++ [DisplayItemMade (made p) data_item])).

(** [DisplayItem.close]: closes the listener to the data item and sets it
    to None, so that a second [close] fails on None. *)
Definition close_display_item (d : DataListController.DisplayItem)
    (p : data_panel) : outcome :=
  if existsb (is_close_of_item d) (panel_log p)
  then Raised ClosedDisplayItemError p
  else Fine (logged (DisplayItemClosed d) p).

(** On the list controller: [self.data_list_controller.m(...)]. *)
Definition on_list_controller
    (m : DataListController.controller -> DataListController.result)
    (p : data_panel) : outcome :=
  if has_list_controller p then
    match m (data_list_controller p) with
    | DataListController.Done c => Fine (set_list_controller c true p)
    | DataListController.Failed e c =>
        Raised (InController e) (set_list_controller c true p)
    end
  else Raised PanelNoneError p.

(** On the grid controller; its [display_item_inserted] and
    [display_item_removed] are those of the list controller, on its own
    lists. *)
Definition on_grid_controller
    (m : DataListController.controller -> DataListController.result)
    (p : data_panel) : outcome :=
  if has_grid_controller p then
    match m (data_grid_controller p) with
    | DataListController.Done c => Fine (set_grid_controller c true p)
    | DataListController.Failed e c =>
        Raised (InController e) (set_grid_controller c true p)
    end
  else Raised PanelNoneError p.

Definition and_then (r : outcome) (k : data_panel -> outcome) : outcome :=
  match r with
  | Fine p => k p
  | Raised e p => Raised e p
  end.

(** [data_item_inserted] of [DataPanel.__init__]:
<<
    display_item = DisplayItem(data_item, dispatch_task, ui)
    self.__display_items.insert(before_index, display_item)
    self.data_list_controller.display_item_inserted(display_item, before_index)
    self.data_grid_controller.display_item_inserted(display_item, before_index)
>> *)
Definition data_item_inserted (data_item : DataItemId) (before_index : Z)
    (p : data_panel) : outcome :=
  let (d, p1) := make_display_item data_item p in
  match item_list p1 with
  | None => Raised PanelNoneError p1
  | Some items =>
      let p2 := set_item_list (Some (PyList.insert items before_index d)) p1 in
      and_then
        (on_list_controller
           (DataListController.display_item_inserted d before_index) p2)
        (on_grid_controller
           (DataListController.display_item_inserted d before_index))
  end.

(** [data_item_removed] of [DataPanel.__init__]:
<<
    self.data_list_controller.display_item_removed(index)
    self.data_grid_controller.display_item_removed(index)
    self.__display_items[index].close()
    del self.__display_items[index]
>> *)
Definition data_item_removed (index : Z) (p : data_panel) : outcome :=
  and_then
    (on_list_controller (DataListController.display_item_removed index) p)
    (fun p1 =>
       and_then
         (on_grid_controller (DataListController.display_item_removed index) p1)
         (fun p2 =>
            match item_list p2 with
            | None => Raised PanelNoneError p2
            | Some items =>
                match PyList.item items index with
                | None => Raised PanelIndexError p2
                | Some d =>
                    and_then (close_display_item d p2)
                      (fun p3 =>
                         match item_list p3 with
                         | None => Raised PanelNoneError p3
                         | Some items3 =>
                             match PyList.delete items3 index with
                             | None => Raised PanelIndexError p3
                             | Some items' =>
                                 Fine (set_item_list (Some items') p3)
                             end
                         end)
                end
            end)).

(** [for display_item in self.__display_items: display_item.close()] *)
Fixpoint close_display_items (l : list DataListController.DisplayItem)
    (p : data_panel) : outcome :=
  match l with
  | [] => Fine p
  | d :: rest => and_then (close_display_item d p) (close_display_items rest)
  end.

(** [close] of the grid controller: that of the list controller, after
    [assert not self.__closed] and before [self.__closed = True]. *)
Definition grid_controller_close (p : data_panel) : outcome :=
  if has_grid_controller p then
    if grid_closed p then Raised GridAssertionError p
    else
      and_then (on_grid_controller DataListController.close p)
        (fun p1 => Fine (set_grid_closed true p1))
  else Raised PanelNoneError p.

(** The part of [DataPanel.close] on the controllers and the display
    items (the statements before it are on other objects):
<<
    self.data_list_controller.close()
    self.data_list_controller = None
    self.data_grid_controller.close()
    self.data_grid_controller = None
    for display_item in self.__display_items:
        display_item.close()
    self.__display_items = None
>> *)
Definition close (p : data_panel) : outcome :=
  and_then (on_list_controller DataListController.close p)
    (fun p1 =>
       let p2 := set_list_controller (data_list_controller p1) false p1 in
       and_then (grid_controller_close p2)
         (fun p3 =>
            let p4 := set_grid_controller (data_grid_controller p3) false p3 in
            match item_list p4 with
            | None => Raised PanelNoneError p4
            | Some items =>
                and_then (close_display_items items p4)
                  (fun p5 => Fine (set_item_list None p5))
            end)).

(** The tasks that the binding queues on the panel. *)
Inductive notice : Type :=
| ItemInserted (data_item : DataItemId) (before_index : Z)
| ItemRemoved (index : Z).

Definition notify (p : data_panel) (n : notice) : data_panel :=
  match n with
  | ItemInserted data_item i => panel_after (data_item_inserted data_item i p)
  | ItemRemoved i => panel_after (data_item_removed i p)
  end.

Definition notify_all (ns : list notice) (p : data_panel) : data_panel :=
  fold_left notify ns p.

Definition times_item_closed (d : DataListController.DisplayItem)
    (l : list panel_effect) : nat :=
  length (filter (is_close_of_item d) l).

Definition is_item (d x : DataListController.DisplayItem) : bool := Nat.eqb x d.

(** What the notices keep: the panel and both controllers hold the same
    display items, both controllers are as [aligned] says and not closed,
    and each display item made so far is in the list and open, or out of
    the list and closed once. *)
Definition in_step (p : data_panel) : Prop :=
  has_list_controller p = true
  /\ has_grid_controller p = true
  /\ grid_closed p = false
  /\ DataListController.selection_listener (data_list_controller p) = true
  /\ DataListController.selection_listener (data_grid_controller p) = true
  /\ DataListController.aligned (data_list_controller p)
  /\ DataListController.aligned (data_grid_controller p)
  /\ exists items,
       item_list p = Some items
       /\ DataListController.display_items (data_list_controller p) = Some items
       /\ DataListController.display_items (data_grid_controller p) = Some items
       /\ forall d,
            times_item_closed d (panel_log p) + length (filter (is_item d) items)
            = if d <? made p then 1 else 0.

End DataPanel.

Unset Implicit Arguments.

Module HistogramThreadProofs.
Import HistogramThread.

Lemma skipn_length_app (A : Type) (l r : list A) :
  skipn (length l) (l ++ r) = r.
Proof.
  induction l as [|x l IH]; simpl; auto.
Qed.

Lemma count_snoc p l e :
  count p (l ++ [e]) = count p l + (if p e then 1 else 0).
Proof.
  unfold count. rewrite filter_app, length_app. simpl.
  destruct (p e); reflexivity.
Qed.

Lemma held_refs_snoc s l e :
  held_refs s (l ++ [e]) = count_step s (held_refs s l) e.
Proof.
  unfold held_refs. rewrite fold_left_app. reflexivity.
Qed.

(** Normal form of the log of a state reached from [st]. *)
Ltac norm_log :=
  unfold actions_since, close, super_close, worker_pass, grab_data, process_data,
    release_data, handle_data, add_ref_if, remove_ref_if, set_data_item, act;
  simpl; repeat rewrite <- app_assoc; simpl.

(** ** handle_data *)

(** The events of [handle_data] on a subject, whatever the state. *)
Lemma handle_data_events st d :
  actions_since st (handle_data d st) =
    Lock ::
    match data_item st with Some o => [RemoveRef o] | None => [] end ++
    Store d :: Unlock ::
    match d with Some s => [AddRef s] | None => [] end.
Proof.
  destruct st as [[o|] l]; destruct d as [s|]; norm_log;
    apply skipn_length_app.
Qed.

Lemma handle_data_slot st d : data_item (handle_data d st) = d.
Proof.
  destruct st as [[o|] l]; destruct d as [s|]; reflexivity.
Qed.

(** C3, as stated, fails: on the empty slot, [handle_data] on subject 1
    stores the subject first and acquires the reference afterwards, after
    the lock is released; the acquisition does not come before the
    store. *)
Lemma handle_data_add_ref_not_before_store :
  actions_since new_thread (handle_data (Some 1) new_thread)
    = [Lock; Store (Some 1); Unlock; AddRef 1]
  /\ before (AddRef 1) (Store (Some 1)) (actions_since new_thread (handle_data (Some 1) new_thread))
     = false.
Proof.
  split; reflexivity.
Qed.

(** C3, amended: for every call of [handle_data] with a subject [s] that is
    not none, in every state, the call releases one reference on the subject
    it replaces (if there is one) under the lock and before the store, puts
    [s] in the pending slot, and acquires exactly one reference on [s]
    after the store and after the lock is released, never before the
    store. *)
Theorem handle_data_refs st s :
  let tr := actions_since st (handle_data (Some s) st) in
  tr = Lock ::
       match data_item st with Some o => [RemoveRef o] | None => [] end ++
       [Store (Some s); Unlock; AddRef s]
  /\ data_item (handle_data (Some s) st) = Some s
  /\ before (Store (Some s)) (AddRef s) tr = true
  /\ before (AddRef s) (Store (Some s)) tr = false
  /\ count (is_add s) tr = 1
  /\ match data_item st with
     | Some o => count (is_remove o) tr = 1
     | None => forall o, count (is_remove o) tr = 0
     end.
Proof.
  intros tr. subst tr. rewrite handle_data_events, handle_data_slot.
  destruct (data_item st) as [o|]; simpl;
    rewrite ?Nat.eqb_refl, ?andb_false_r, ?orb_true_r; simpl;
    repeat split; auto; unfold count; simpl;
    rewrite ?Nat.eqb_refl; auto.
Qed.

(** ** Reference balance over a run *)

Ltac count_log :=
  unfold add_refs, remove_refs;
  repeat (rewrite ?count_snoc, ?held_refs_snoc; simpl).

(** Decide the comparisons of subjects, then close the goal by
    arithmetic; the invariant of the state before is the premise of the
    goal. *)
Ltac split_subjects :=
  repeat match goal with
         | H : Nat.eqb ?a ?b = _ |- context [Nat.eqb ?a ?b] => rewrite H; simpl
         | |- context [Nat.eqb ?a ?b] => destruct (Nat.eqb a b) eqn:?; simpl
         end.

Ltac close_balance :=
  let Hh := fresh "Hh" in
  let Ha := fresh "Ha" in
  simpl; unfold balanced; simpl; intros [Hh Ha]; revert Ha;
  count_log; rewrite Hh; clear Hh; simpl; split_subjects;
  intros Ha; split; try reflexivity; lia.

Lemma balanced_init s : balanced s new_thread.
Proof. split; reflexivity. Qed.

Lemma balanced_handle_data s d st :
  balanced s st -> balanced s (handle_data d st).
Proof.
  destruct st as [[o|] l], d as [x|];
    unfold handle_data, add_ref_if, remove_ref_if, set_data_item, act;
    close_balance.
Qed.

Lemma balanced_worker_pass s st :
  balanced s st -> balanced s (worker_pass st).
Proof.
  destruct st as [[o|] l];
    unfold worker_pass, grab_data, process_data, release_data,
      set_data_item, act;
    close_balance.
Qed.

Lemma balanced_run s calls : forall st, balanced s st -> balanced s (do_calls calls st).
Proof.
  induction calls as [|o calls IH]; intros st H; simpl; auto.
  apply IH. destruct o; simpl;
    auto using balanced_handle_data, balanced_worker_pass.
Qed.

Lemma balanced_close s st :
  balanced s st ->
  held_refs s (actions (close st)) = Some 0
  /\ add_refs s (actions (close st)) = remove_refs s (actions (close st)).
Proof.
  destruct st as [[o|] l];
    unfold close, super_close, remove_ref_if, act;
    close_balance.
Qed.

(** C4: for every finite sequence of notifications ([handle_data] with a
    subject or with none) and worker passes ([grab_data], then
    [release_data] of a subject that was taken), started on a new thread
    object and ended by [close], and for every subject, the calls of
    [add_ref] and of [remove_ref] on the subject are equal in number, and a
    reference counter run over the calls never goes below zero: no
    reference is leaked and none is released twice. *)
Theorem refs_balanced_after_close (calls : list call) (s : Subject) :
  add_refs s (actions (close (do_calls calls new_thread))) =
    remove_refs s (actions (close (do_calls calls new_thread)))
  /\ held_refs s (actions (close (do_calls calls new_thread))) = Some 0.
Proof.
  destruct (balanced_close s _ (balanced_run s calls _ (balanced_init s))) as [H1 H2].
  split; assumption.
Qed.

Example refs_balanced_run :
  actions (close (do_calls [Notify (Some 1); Notify (Some 2); Pass; Notify None;
                   Notify (Some 1)] new_thread))
  = [Lock; Store (Some 1); Unlock; AddRef 1;
     Lock; RemoveRef 1; Store (Some 2); Unlock; AddRef 2;
     Lock; Store None; Unlock; Process (Some 2); RemoveRef 2;
     Lock; Store None; Unlock;
     Lock; Store (Some 1); Unlock; AddRef 1;
     Lock; RemoveRef 1; Unlock].
Proof. reflexivity. Qed.





Example refs_balanced_fine_run :
  actions (close_system
             (do_moves [DoNotify (Some 1); DoGrab; DoNotify (Some 1);
                        DoNotify (Some 2); DoFinish; DoGrab]
                (mkSystem new_thread None)))
  = [Lock; Store (Some 1); Unlock; AddRef 1;
     Lock; Store None; Unlock;
     Lock; Store (Some 1); Unlock; AddRef 1;
     Lock; RemoveRef 1; Store (Some 2); Unlock; AddRef 2;
     Process (Some 1); RemoveRef 1;
     Lock; Store None; Unlock;
     Process (Some 2); RemoveRef 2;
     Lock; Unlock].
Proof. reflexivity. Qed.

(** ** Coalescing *)

Lemma worker_pass_empty st :
  data_item st = None ->
  data_item (worker_pass st) = None
  /\ actions (worker_pass st) = actions st ++ [Lock; Store None; Unlock; Process None].
Proof.
  destruct st as [o l]. simpl. intros ->. norm_log. auto.
Qed.

Lemma processed_app l1 l2 : processed (l1 ++ l2) = processed l1 ++ processed l2.
Proof.
  induction l1 as [|e l1 IH]; simpl; auto.
  destruct e as [| |d|x|x|[x|]]; simpl; auto. now rewrite IH.
Qed.

Lemma passes_on_empty n : forall st,
  data_item st = None ->
  processed (actions (do_calls (repeat Pass n) st)) = processed (actions st).
Proof.
  induction n as [|n IH]; intros st H; simpl; auto.
  destruct (worker_pass_empty st H) as [Hd Hl].
  rewrite IH by assumption. rewrite Hl, processed_app. simpl.
  apply app_nil_r.
Qed.

(** C7: when [handle_data] on [a] is followed by [handle_data] on subject
    [b] with no [grab_data] in between, the pending slot holds [b]; the next
    [grab_data] returns [b] and the one after it returns none; and however
    many passes the worker then makes (at least one), the compute step is
    invoked on a subject exactly once, on [b]. *)
Theorem notify_twice_coalesces (st : thread) (a : option Subject) (b : Subject) (n : nat) :
  let st2 := handle_data (Some b) (handle_data a st) in
  data_item st2 = Some b
  /\ fst (grab_data st2) = Some b
  /\ fst (grab_data (snd (grab_data st2))) = None
  /\ processed (actions_since st2 (do_calls (repeat Pass (S n)) st2)) = [b].
Proof.
  intros st2.
  assert (Hslot : data_item st2 = Some b) by apply handle_data_slot.
  split; [exact Hslot|]. split; [exact Hslot|]. split; [reflexivity|].
  - simpl.
    assert (Hpass : data_item (worker_pass st2) = None
                    /\ actions (worker_pass st2) =
                       actions st2 ++ [Lock; Store None; Unlock;
                                   Process (Some b); RemoveRef b]).
    { destruct st2 as [o l]. simpl in Hslot. subst o. norm_log. auto. }
    destruct Hpass as [Hd Hl].
    assert (Hlog : exists tl, actions (do_calls (repeat Pass n) (worker_pass st2))
                              = actions st2 ++ tl /\ processed tl = [b]).
    { clear Hslot.
      assert (G : forall k st1 tl0,
                 data_item st1 = None -> actions st1 = actions st2 ++ tl0 ->
                 exists tl, actions (do_calls (repeat Pass k) st1) = actions st2 ++ tl
                            /\ processed tl = processed tl0).
      { induction k as [|k IH]; intros st1 tl0 H1 H2; simpl.
        - exists tl0. auto.
        - destruct (worker_pass_empty st1 H1) as [Hd1 Hl1].
          destruct (IH (worker_pass st1)
                       (tl0 ++ [Lock; Store None; Unlock; Process None]) Hd1)
            as [tl [E1 E2]].
          { rewrite Hl1, H2, app_assoc. reflexivity. }
          exists tl. split; auto. rewrite E2, processed_app. simpl.
          apply app_nil_r. }
      destruct (G n (worker_pass st2) _ Hd Hl) as [tl [E1 E2]].
      exists tl. auto. }
    destruct Hlog as [tl [E1 E2]].
    unfold actions_since. rewrite E1, skipn_length_app. exact E2.
Qed.

(** ** close *)

(** C10: [close] releases one reference on a pending subject and leaves the
    pending slot as it is; so in every state whose pending slot holds a
    subject, a second [close] releases one more reference on the same
    subject. *)
Theorem close_keeps_pending_slot (st : thread) (s : Subject) :
  data_item st = Some s ->
  data_item (close st) = Some s
  /\ actions_since st (close st) = [Lock; RemoveRef s; Unlock]
  /\ actions_since (close st) (close (close st)) = [Lock; RemoveRef s; Unlock]
  /\ remove_refs s (actions (close (close st))) = remove_refs s (actions st) + 2.
Proof.
  destruct st as [o l]. simpl. intros ->.
  repeat split.
  - norm_log. apply skipn_length_app.
  - norm_log.
    change (l ++ Lock :: RemoveRef s :: Unlock ::
                 [Lock; RemoveRef s; Unlock])
      with (l ++ [Lock; RemoveRef s; Unlock] ++
                 [Lock; RemoveRef s; Unlock]).
    rewrite app_assoc. apply skipn_length_app.
  - norm_log. unfold remove_refs, count.
    rewrite !filter_app, !length_app. simpl. rewrite Nat.eqb_refl. simpl. lia.
Qed.

(** C10, after one notification of subject 3. *)
Lemma close_keeps_pending_slot_witness :
  data_item (close (handle_data (Some 3) new_thread)) = Some 3
  /\ actions_since (handle_data (Some 3) new_thread) (close (handle_data (Some 3) new_thread))
     = [Lock; RemoveRef 3; Unlock]
  /\ actions_since (close (handle_data (Some 3) new_thread))
           (close (close (handle_data (Some 3) new_thread)))
     = [Lock; RemoveRef 3; Unlock]
  /\ remove_refs 3 (actions (close (close (handle_data (Some 3) new_thread))))
     = remove_refs 3 (actions (handle_data (Some 3) new_thread)) + 2.
Proof.
  apply (close_keeps_pending_slot (handle_data (Some 3) new_thread) 3).
  reflexivity.
Defined.

End HistogramThreadProofs.

(* ===================================================================== *)
(** * Properties of DataItemProcessor *)
(* ===================================================================== *)

Module DataItemProcessorProofs.
Import DataItemProcessor.

Section Facts.

Variables UI Raw V : Type.

Local Abbreviation processor := (processor UI Raw V).
Local Abbreviation state := (state UI Raw V).
Local Abbreviation event := (event UI Raw V).

(** Run the methods on a state whose relevant parts are known. *)
Ltac run_proc :=
  cbv -[app skipn log_size removelast];
  repeat (match goal with
          | H : ?f ?a = _ |- context [?f ?a] => rewrite H
          | H : ?f ?a ?b = _ |- context [?f ?a ?b] => rewrite H
          end;
          cbv -[app skipn log_size removelast]).

(** Case analysis on everything a method of the instance looks at. *)
Ltac split_state P st :=
  let alive := fresh "alive" in
  let sd := fresh "sd" in
  let cl := fresh "cl" in
  let outs := fresh "outs" in
  let od := fresh "od" in
  let ip := fresh "ip" in
  let fe := fresh "fe" in
  let cv := fresh "cv" in
  let ts := fresh "ts" in
  let rs := fresh "rs" in
  let l := fresh "l" in
  let Esd := fresh "Esd" in
  destruct P as [name calc dflt];
  destruct st as [[alive sd cl outs od] ip fe cv [[|]|] ts rs l];
  destruct (sd l) eqn:Esd;
  destruct alive, cl, outs as [|? [|? ?]], ip, cv.

(** Case analysis on everything a job looks at. *)
Ltac split_job P st j :=
  let alive := fresh "alive" in
  let od := fresh "od" in
  let calc := fresh "calc" in
  let jui := fresh "jui" in
  let h := fresh "h" in
  let x := fresh "x" in
  let Eod := fresh "Eod" in
  let Ec := fresh "Ec" in
  destruct P as [name calc dflt];
  destruct st as [[alive sd cl outs od] ip fe cv d ts rs l];
  destruct j as [jui [|h t] [f|]];
  try (destruct (od h) as [x|] eqn:Eod;
       [destruct (calc jui x) as [[v|]|e] eqn:Ec|]);
  destruct alive.

Lemma skipn_size_app (l r : list event) :
  skipn (log_size l) (l ++ r) = r.
Proof.
  unfold log_size. induction l as [|x l IH]; simpl; auto.
Qed.

Lemma skipn_size (l : list event) : skipn (log_size l) l = [].
Proof.
  unfold log_size. induction l as [|x l IH]; simpl; auto.
Qed.

(** The events added to a log [l] that was extended on the right. *)
Ltac added_events :=
  repeat rewrite <- app_assoc; simpl;
  first [rewrite skipn_size_app | rewrite skipn_size].

(** ** Staleness *)

Lemma is_stale_result (P : processor) (st : state) :
  fst (is_stale P st) =
    if flag_is_dirty (cached_value_dirty st) then Ret true
    else if item_alive (env st) then Ret (subject_dirty (env st) (log st))
         else Raise AttributeError.
Proof.
  split_state P st; run_proc; reflexivity.
Qed.

(** C2, amended: [get_data] takes the value to be stale exactly when the
    local flag is dirty (set, and true) or the owning item reports the slot
    dirty; an unset local flag, like a clean one, leaves the answer to the
    item's [is_cached_value_dirty] (and the check fails when the item is
    gone).  A job is handed to the dispatcher exactly when the value is
    stale in this sense, the data item is open with one output, no job is
    in progress and the item is there to take the task. *)
Theorem get_data_staleness (P : processor) (st : state) (ui : UI) (fn : option nat) :
  fst (is_stale P st) =
    (if flag_is_dirty (cached_value_dirty st) then Ret true
     else if item_alive (env st) then Ret (subject_dirty (env st) (log st))
          else Raise AttributeError)
  /\ tasks (exec (get_data P ui fn) st) =
       if (flag_is_dirty (cached_value_dirty st)
           || subject_dirty (env st) (log st))
          && item_alive (env st)
          && negb (closed (env st))
          && (length (data_outputs (env st)) =? 1)
          && negb (in_progress st)
       then tasks st ++ [mkJob ui (data_outputs (env st)) fn]
       else tasks st.
Proof.
  split; [apply is_stale_result|].
  split_state P st; run_proc; reflexivity.
Qed.

(** ** Single flight *)











(** ** The lock *)

(** C8, amended: of the cache entry, only the in-progress flag is written
    while the instance's lock is held.  The cached value and the dirty flag
    are written without the lock, by [set_cached_value_dirty] and by the
    job, the final write after a successful computation included.  No lock
    is held while [get_calculated_data] runs. *)
Theorem lock_discipline (P : processor) (st : state) (ui : UI)
    (fn : option nat) (j : job UI) :
  locked writes_in_progress 0 (added st (exec (get_data P ui fn) st)) = true
  /\ locked writes_in_progress 0 (added st (exec (load_data_on_thread P j) st)) = true
  /\ locked writes_in_progress 0 (added st (exec (set_cached_value_dirty P) st)) = true
  /\ unlocked is_compute 0 (added st (exec (load_data_on_thread P j) st)) = true
  /\ unlocked writes_cache 0 (added st (exec (load_data_on_thread P j) st)) = true
  /\ unlocked writes_cache 0 (added st (exec (set_cached_value_dirty P) st)) = true
  /\ unlocked writes_cache 0 (added st (exec (get_data P ui fn) st)) = true.
Proof.
  assert (Hjob : locked writes_in_progress 0
                   (added st (exec (load_data_on_thread P j) st)) = true
                 /\ unlocked is_compute 0
                      (added st (exec (load_data_on_thread P j) st)) = true
                 /\ unlocked writes_cache 0
                      (added st (exec (load_data_on_thread P j) st)) = true).
  { split_job P st j; unfold added; run_proc; added_events; repeat split. }
  assert (Hdirty : locked writes_in_progress 0
                     (added st (exec (set_cached_value_dirty P) st)) = true
                   /\ unlocked writes_cache 0
                        (added st (exec (set_cached_value_dirty P) st)) = true).
  { destruct P as [name calc dflt].
    destruct st as [[[|] sd cl outs od] ip fe cv d ts rs l];
      unfold added; run_proc; added_events; repeat split. }
  assert (Hget : locked writes_in_progress 0
                   (added st (exec (get_data P ui fn) st)) = true
                 /\ unlocked writes_cache 0
                      (added st (exec (get_data P ui fn) st)) = true).
  { split_state P st; unfold added; run_proc; added_events; repeat split. }
  destruct Hjob as [J1 [J2 J3]], Hdirty as [D1 D2], Hget as [G1 G2].
  repeat split; assumption.
Qed.

(** ** The item is gone *)


(** ** No upstream data *)

Lemma get_data_without_cache (P : processor) (st : state) (ui : UI)
    (fn : option nat) :
  item_alive (env st) = true ->
  cached_value st = None ->
  fst (get_data P ui fn st) = Ret (get_default_data P).
Proof.
  intros Ha Hc.
  split_state P st; try discriminate Ha; try discriminate Hc;
    run_proc; reflexivity.
Qed.

(** C6, amended: raw data that is none when the job runs is a normal
    outcome without a result: the job removes the cache slot from the
    item, resets the local cached value and flag to none, passes the
    default value to the completion function, ends as usual, and
    [get_data] then returns the default value.  A closed data item is
    another matter: [get_data] then schedules no job and clears nothing;
    the slot is not removed, the local cache is kept, and the cached value
    is returned if there is one, the default otherwise. *)
Theorem no_upstream_data (P : processor) (st : state) (ui : UI)
    (fn : option nat) (j : job UI) (h : nat) (rest : list nat) :
  (item_alive (env st) = true ->
   job_outputs j = h :: rest ->
   output_data (env st) h = None ->
   load_data_on_thread P j st
     = (Ret tt, exec (load_data_on_thread P j) st)
   /\ added st (exec (load_data_on_thread P j) st) =
        [Sleep; ItemCall (cache_property_name P) RemoveCachedValue;
         WriteCachedValue None; WriteDirty None]
        ++ match job_completion j with
           | Some f => [Completion f (get_default_data P)]
           | None => []
           end
        ++ [Acquire; WriteInProgress false; Release; FinishSet]
   /\ cached_value (exec (load_data_on_thread P j) st) = None
   /\ cached_value_dirty (exec (load_data_on_thread P j) st) = None
   /\ in_progress (exec (load_data_on_thread P j) st) = false
   /\ finish_event (exec (load_data_on_thread P j) st) = true
   /\ fst (get_data P ui fn (exec (load_data_on_thread P j) st))
      = Ret (get_default_data P))
  /\ (closed (env st) = true ->
      flag_is_dirty (cached_value_dirty st) || item_alive (env st) = true ->
      fst (get_data P ui fn st)
        = Ret match cached_value st with
              | Some v => Some v
              | None => get_default_data P
              end
      /\ tasks (exec (get_data P ui fn) st) = tasks st
      /\ running (exec (get_data P ui fn) st) = running st
      /\ cached_value (exec (get_data P ui fn) st) = cached_value st
      /\ cached_value_dirty (exec (get_data P ui fn) st) = cached_value_dirty st
      /\ in_progress (exec (get_data P ui fn) st) = in_progress st
      /\ has is_remove_cached_value (added st (exec (get_data P ui fn) st))
         = false).
Proof.
  split.
  - intros Ha Hj Hd.
    assert (Henv : item_alive (env (exec (load_data_on_thread P j) st)) = true
                   /\ cached_value (exec (load_data_on_thread P j) st) = None).
    { destruct P as [name calc dflt].
      destruct st as [[alive sd cl outs od] ip fe cv d ts rs l].
      destruct j as [jui jouts [f|]]; simpl in Ha, Hj, Hd; subst alive jouts;
        run_proc; auto. }
    destruct Henv as [Ha' Hc'].
    repeat split; auto using get_data_without_cache;
      destruct P as [name calc dflt];
      destruct st as [[alive sd cl outs od] ip fe cv d ts rs l];
      destruct j as [jui jouts [f|]]; simpl in Ha, Hj, Hd; subst alive jouts;
      unfold added; run_proc; try added_events; reflexivity.
  - intros Hc Hs.
    split_state P st; try discriminate Hc; try discriminate Hs;
      unfold added; run_proc; added_events; repeat split.
Qed.

(** ** A failing computation *)

(** Whatever the state, a job whose computation raises ends with that
    exception after printing the traceback and setting the finish event;
    it leaves the in-progress flag and the cached value as they were. *)
Lemma job_raise_keeps_flag (P : processor) (st : state) (j : job UI)
    (h : nat) (rest : list nat) (d : Raw) (e : exn) :
  job_outputs j = h :: rest ->
  output_data (env st) h = Some d ->
  get_calculated_data P (job_ui j) d = Raise e ->
  load_data_on_thread P j st = (Raise e, exec (load_data_on_thread P j) st)
  /\ added st (exec (load_data_on_thread P j) st)
     = [Sleep; Compute (job_ui j) d; PrintExc; FinishSet]
  /\ in_progress (exec (load_data_on_thread P j) st) = in_progress st
  /\ finish_event (exec (load_data_on_thread P j) st) = true
  /\ cached_value (exec (load_data_on_thread P j) st) = cached_value st
  /\ cached_value_dirty (exec (load_data_on_thread P j) st)
     = cached_value_dirty st.
Proof.
  intros Hj Hd He.
  destruct P as [name calc dflt].
  destruct st as [[alive sd cl outs od] ip fe cv dirty ts rs l].
  destruct j as [jui jouts f]; simpl in Hj, Hd, He; subst jouts.
  unfold added; run_proc; added_events; repeat split.
Qed.

End Facts.
(** ** Runs of the instance [doubling] *)

(** C2, as stated, fails: on a new instance (local flag unset) whose item
    reports the slot clean, the rule of the specification says stale, but
    the condition of [get_data] is false and no job is scheduled, although
    the data item is open with one output and nothing is in progress. *)
Lemma unset_flag_is_not_stale :
  let st := init (world_of true false false (Some 5)) in
  cached_value_dirty st = None
  /\ spec_is_stale (cached_value_dirty st) (subject_dirty (env st) (log st)) = true
  /\ fst (is_stale doubling st) = Ret false
  /\ tasks (exec (get_data doubling 1 None) st) = []
  /\ log (exec (get_data doubling 1 None) st)
     = [ItemCall "histogram" IsCachedValueDirty].
Proof.
  cbv. repeat split.
Qed.

(** C1 fails on the code.  An instance has computed and cached the value 10;
    then the raw data becomes 0, on which the computation raises, and the
    item reports the slot dirty.  [get_data] schedules a job; the job
    prints the traceback, sets the finish event and raises again, and the
    cached value 10 stays visible: this much is as C1 says.  But the job
    ends without clearing the in-progress flag, so the next [get_data],
    which finds the cache dirty, schedules nothing, and neither does any
    later one. *)
Theorem failed_job_leaves_in_progress_set :
  let st := run doubling
              [GetData 1 None; RunTask;
               World (world_of true true false (Some 0)); GetData 1 None]
              (init (world_of true true false (Some 5))) in
  let st' := exec (run_task doubling) st in
  cached_value st = Some 10
  /\ in_progress st = true
  /\ in_flight st = 1
  /\ fst (run_task doubling st) = Raise (ComputeError 1)
  /\ added st st' = [Sleep; Compute 1 0; PrintExc; FinishSet]
  /\ in_flight st' = 0
  /\ finish_event st' = true
  /\ cached_value st' = Some 10
  /\ in_progress st' = true
  /\ fst (is_stale doubling st') = Ret true
  /\ fst (get_data doubling 1 None st') = Ret (Some 10)
  /\ in_flight (exec (get_data doubling 1 None) st') = 0
  /\ in_flight (run doubling
                  [SetCachedValueDirtyOp; GetData 1 None; GetData 2 (Some 3)]
                  st') = 0.
Proof.
  cbv. repeat split.
Qed.


(** C6, as stated, fails for a closed data item: with the value 10 in the
    cache and the data item closed, [get_data] returns 10 and not the
    default 7; no job is scheduled, the slot is not removed and the local
    cache is not reset, however often [get_data] is called and the
    dispatcher is run. *)
Lemma closed_data_item_keeps_cache :
  let st := run doubling
              [GetData 1 None; RunTask;
               World (world_of true true true None)]
              (init (world_of true true false (Some 5))) in
  let st' := run doubling [GetData 1 None; RunTask; StartTask; FinishTask;
                           GetData 1 None] st in
  closed (env st) = true
  /\ get_default_data doubling = Some 7
  /\ fst (get_data doubling 1 None st) = Ret (Some 10)
  /\ in_flight (exec (get_data doubling 1 None) st) = 0
  /\ cached_value st' = Some 10
  /\ has is_remove_cached_value (log st') = false
  /\ fst (get_data doubling 1 None st') = Ret (Some 10).
Proof.
  cbv. repeat split.
Qed.

(** C6, amended, on runs: with no raw data the job clears the cache and
    [get_data] returns the default 7; with the data item closed the
    cached 10 is returned. *)
Lemma no_upstream_data_witness :
  fst (get_data doubling 1 None
         (exec (load_data_on_thread doubling (mkJob 1 [0] (Some 4)))
            (run doubling [GetData 1 None; RunTask;
                           World (world_of true true false None)]
               (init (world_of true true false (Some 5))))))
  = Ret (Some 7)
  /\ fst (get_data doubling 1 None
            (run doubling [GetData 1 None; RunTask;
                           World (world_of true true true None)]
               (init (world_of true true false (Some 5)))))
     = Ret (Some 10).
Proof.
  destruct (no_upstream_data nat nat nat doubling
              (run doubling [GetData 1 None; RunTask;
                             World (world_of true true false None)]
                 (init (world_of true true false (Some 5))))
              1 None (mkJob 1 [0] (Some 4)) 0 []) as [H1 _].
  destruct (no_upstream_data nat nat nat doubling
              (run doubling [GetData 1 None; RunTask;
                             World (world_of true true true None)]
                 (init (world_of true true false (Some 5))))
              1 None (mkJob 1 [0] (Some 4)) 0 []) as [_ H2].
  split.
  - apply H1; reflexivity.
  - apply H2; reflexivity.
Defined.

(** C8, as stated, fails: a job that computes 10 from 5 writes the cached
    value and the dirty flag before it takes the lock, and
    [set_cached_value_dirty] writes the dirty flag without the lock: not
    every write of the cache entry happens with the lock held, and the
    final write of the cache is not under the lock. *)
Lemma cache_written_without_lock :
  let st := exec (get_data doubling 1 None)
              (init (world_of true true false (Some 5))) in
  added st (exec (run_task doubling) st)
  = [Sleep; Compute 1 5; ItemCall "histogram" (SetCachedValue (Some 10));
     WriteCachedValue (Some 10); WriteDirty (Some false);
     Acquire; WriteInProgress false; Release; FinishSet]
  /\ locked writes_entry 0 (added st (exec (run_task doubling) st)) = false
  /\ added st (exec (set_cached_value_dirty doubling) st)
     = [ItemCall "histogram" SetCachedValueDirty; WriteDirty (Some true)]
  /\ locked writes_entry 0 (added st (exec (set_cached_value_dirty doubling) st))
     = false.
Proof.
  cbv. repeat split.
Qed.



End DataItemProcessorProofs.

(* ===================================================================== *)
(** * More on DataItemProcessor: reads, recomputation, close *)
(* ===================================================================== *)

Module DataItemProcessorMore.
Import DataItemProcessor.

Section Facts.

Variables UI Raw V : Type.

Local Abbreviation processor := (processor UI Raw V).
Local Abbreviation state := (state UI Raw V).
Local Abbreviation event := (event UI Raw V).

Ltac evaluate :=
  cbv -[app skipn log_size removelast];
  repeat (match goal with
          | H : ?f ?a = _ |- context [?f ?a] => rewrite H
          | H : ?f ?a ?b = _ |- context [?f ?a ?b] => rewrite H
          end;
          cbv -[app skipn log_size removelast]).

(** All the cases [get_data] distinguishes. *)
Ltac cases_of_state P st :=
  let alive := fresh "alive" in
  let sd := fresh "sd" in
  let cl := fresh "cl" in
  let outs := fresh "outs" in
  let od := fresh "od" in
  let ip := fresh "ip" in
  let fe := fresh "fe" in
  let cv := fresh "cv" in
  let ts := fresh "ts" in
  let rs := fresh "rs" in
  let l := fresh "l" in
  let Esd := fresh "Esd" in
  destruct P as [name calc dflt];
  destruct st as [[alive sd cl outs od] ip fe cv [[|]|] ts rs l];
  destruct (sd l) eqn:Esd;
  destruct alive, cl, outs as [|? [|? ?]], ip, cv.

Lemma drop_log (l r : list event) : skipn (log_size l) (l ++ r) = r.
Proof.
  unfold log_size. induction l as [|x l IH]; simpl; auto.
Qed.

Lemma drop_whole_log (l : list event) : skipn (log_size l) l = [].
Proof.
  unfold log_size. induction l as [|x l IH]; simpl; auto.
Qed.

Ltac new_events :=
  repeat rewrite <- app_assoc; simpl;
  first [rewrite drop_log | rewrite drop_whole_log].

(** ** Reading *)

(** X1: [get_data] is a read.  Whatever the state, it leaves the cached
    value, the dirty flag and the surroundings as they are and never calls
    [get_calculated_data] itself; and when it returns, it returns the
    value cached at the time of the call, or the default value when
    nothing is cached.  The only way it fails is the AttributeError of an
    item that is gone. *)
Theorem get_data_reads (P : processor) (st : state) (ui : UI) (fn : option nat) :
  cached_value (exec (get_data P ui fn) st) = cached_value st
  /\ cached_value_dirty (exec (get_data P ui fn) st) = cached_value_dirty st
  /\ env (exec (get_data P ui fn) st) = env st
  /\ running (exec (get_data P ui fn) st) = running st
  /\ has is_compute (added st (exec (get_data P ui fn) st)) = false
  /\ (fst (get_data P ui fn st) = Raise AttributeError
      \/ fst (get_data P ui fn st)
         = Ret match cached_value st with
               | Some v => Some v
               | None => get_default_data P
               end).
Proof.
  cases_of_state P st; unfold added; evaluate; new_events;
    repeat split; auto.
Qed.

(** ** Recomputation *)






Lemma set_dirty_frame (P : processor) (st : state) :
  env (exec (set_cached_value_dirty P) st) = env st
  /\ tasks (exec (set_cached_value_dirty P) st) = tasks st
  /\ running (exec (set_cached_value_dirty P) st) = running st
  /\ in_progress (exec (set_cached_value_dirty P) st) = in_progress st
  /\ finish_event (exec (set_cached_value_dirty P) st) = finish_event st.
Proof.
  destruct P as [name calc dflt].
  destruct st as [[[|] sd cl outs od] ip fe cv d ts rs l]; evaluate; auto.
Qed.

(** With nothing to start or to finish, the dispatcher does nothing. *)
Lemma start_task_idle (P : processor) (st : state) :
  tasks st = [] -> exec (start_task P) st = st.
Proof.
  destruct P as [name calc dflt].
  destruct st as [[alive sd cl outs od] ip fe cv d ts rs l].
  simpl. intros ->. reflexivity.
Qed.

Lemma finish_task_idle (st : state) :
  running st = [] -> exec (@finish_task UI Raw V) st = st.
Proof.
  destruct st as [[alive sd cl outs od] ip fe cv d ts rs l].
  simpl. intros ->. reflexivity.
Qed.

Lemma run_task_idle (P : processor) (st : state) :
  tasks st = [] -> exec (run_task P) st = st.
Proof.
  destruct P as [name calc dflt].
  destruct st as [[alive sd cl outs od] ip fe cv d ts rs l].
  simpl. intros ->. reflexivity.
Qed.






(** ** Scheduling after the item is gone *)

Lemma get_data_in_progress (P : processor) (st : state) (ui : UI)
    (fn : option nat) :
  in_progress st = true ->
  tasks (exec (get_data P ui fn) st) = tasks st
  /\ running (exec (get_data P ui fn) st) = running st
  /\ in_progress (exec (get_data P ui fn) st) = true
  /\ finish_event (exec (get_data P ui fn) st) = finish_event st.
Proof.
  intros Hip.
  cases_of_state P st; try discriminate Hip; evaluate; auto.
Qed.

Lemma stuck_step (P : processor) (st : state) (o : op UI Raw V) :
  stuck st -> stuck (step P st o).
Proof.
  intros (Hn & Hip & Hf). unfold stuck, in_flight in *.
  assert (Ht : tasks st = []) by (destruct (tasks st); [auto|simpl in Hn; lia]).
  assert (Hr : running st = []) by
    (destruct (running st); [auto|rewrite Ht in Hn; simpl in Hn; lia]).
  destruct o as [ui fn| | |k v| | | |w]; cbv [step data_item_changed].
  - destruct (get_data_in_progress P st ui fn Hip) as (-> & -> & -> & ->). auto.
  - destruct (set_dirty_frame P st) as (_ & -> & -> & -> & ->). auto.
  - destruct (set_dirty_frame P st) as (_ & -> & -> & -> & ->). auto.
  - auto.
  - rewrite (start_task_idle P st Ht). auto.
  - rewrite (finish_task_idle st Hr). auto.
  - rewrite (run_task_idle P st Ht). auto.
  - auto.
Qed.

Lemma stuck_run (P : processor) (ops : list (op UI Raw V)) :
  forall st, stuck st -> stuck (run P ops st).
Proof.
  induction ops as [|o ops IH]; intros st H; simpl; auto using stuck_step.
Qed.

(** X3: scheduling without the item.  When the local flag is dirty, the
    data item is open with one output and no job is in progress or in
    flight, but the item is gone, [get_data] raises the flag and clears
    the finish event before it fails on [add_shared_task] with an
    AttributeError.  No job was handed over, so nothing sets the event
    again: whatever is called afterwards, in any order and even if an item
    is there again, no job is scheduled any more and [close] waits for
    ever. *)
Theorem schedule_without_item_blocks_close (P : processor) (st : state)
    (ui : UI) (fn : option nat) (ops : list (op UI Raw V)) :
  item_alive (env st) = false ->
  flag_is_dirty (cached_value_dirty st) = true ->
  closed (env st) = false ->
  length (data_outputs (env st)) = 1 ->
  in_progress st = false ->
  in_flight st = 0 ->
  fst (get_data P ui fn st) = Raise AttributeError
  /\ in_progress (run P ops (exec (get_data P ui fn) st)) = true
  /\ in_flight (run P ops (exec (get_data P ui fn) st)) = 0
  /\ close (run P ops (exec (get_data P ui fn) st)) = None.
Proof.
  intros Ha Hd Hc Ho Hip Hn.
  assert (H0 : fst (get_data P ui fn st) = Raise AttributeError
               /\ stuck (exec (get_data P ui fn) st)).
  { unfold stuck. revert Hn. unfold in_flight.
    cases_of_state P st; try discriminate Ha; try discriminate Hd;
      try discriminate Hc; try discriminate Ho; try discriminate Hip;
      evaluate; auto. }
  destruct H0 as [Hr Hs]. split; [exact Hr|].
  destruct (stuck_run P ops _ Hs) as (Hn' & Hip' & Hf').
  unfold close. rewrite Hf'. auto.
Qed.

(** ** A dirty signal *)

(** X4: a dirty signal triggers one recomputation.  With the item there,
    the data item open with one output and no job in progress,
    [set_cached_value_dirty] followed by [get_data] hands exactly one job
    to the dispatcher, whatever the item answers about the slot; a second
    [get_data] before the job is over hands over none. *)
Theorem dirty_triggers_one_job (P : processor) (st : state) (ui ui' : UI)
    (fn fn' : option nat) :
  item_alive (env st) = true ->
  closed (env st) = false ->
  length (data_outputs (env st)) = 1 ->
  in_progress st = false ->
  tasks (run P [SetCachedValueDirtyOp; GetData ui fn] st)
    = tasks st ++ [mkJob ui (data_outputs (env st)) fn]
  /\ in_progress (run P [SetCachedValueDirtyOp; GetData ui fn] st) = true
  /\ finish_event (run P [SetCachedValueDirtyOp; GetData ui fn] st) = false
  /\ tasks (run P [SetCachedValueDirtyOp; GetData ui fn; GetData ui' fn'] st)
     = tasks st ++ [mkJob ui (data_outputs (env st)) fn].
Proof.
  intros Ha Hc Ho Hip.
  destruct P as [name calc dflt].
  destruct st as [[alive sd cl outs od] ip fe cv d ts rs l].
  simpl in Ha, Hc, Ho, Hip. subst alive cl ip.
  destruct outs as [|h [|h' t]]; try discriminate Ho.
  destruct cv; evaluate; auto.
Qed.

(** ** What a job leaves behind *)

(** X5: a successful computation is cached and then read back.  When the
    raw data is there and [get_calculated_data] returns a value [v], the
    job stores [v] in the item's slot and in the local cache, marks the
    local flag clean, passes [v] to the completion function, lowers the
    in-progress flag under the lock and sets the finish event; [get_data]
    on the state it leaves returns [v], and schedules nothing as long as
    the item reports the slot clean. *)
Theorem computed_value_is_cached (P : processor) (st : state) (j : job UI)
    (h : nat) (rest : list nat) (d : Raw) (v : V) (ui : UI) (fn : option nat) :
  item_alive (env st) = true ->
  job_outputs j = h :: rest ->
  output_data (env st) h = Some d ->
  get_calculated_data P (job_ui j) d = Ret (Some v) ->
  load_data_on_thread P j st = (Ret tt, exec (load_data_on_thread P j) st)
  /\ added st (exec (load_data_on_thread P j) st)
     = [Sleep; Compute (job_ui j) d;
        ItemCall (cache_property_name P) (SetCachedValue (Some v));
        WriteCachedValue (Some v); WriteDirty (Some false)]
       ++ match job_completion j with
          | Some f => [Completion f (Some v)]
          | None => []
          end
       ++ [Acquire; WriteInProgress false; Release; FinishSet]
  /\ cached_value (exec (load_data_on_thread P j) st) = Some v
  /\ cached_value_dirty (exec (load_data_on_thread P j) st) = Some false
  /\ in_progress (exec (load_data_on_thread P j) st) = false
  /\ finish_event (exec (load_data_on_thread P j) st) = true
  /\ fst (get_data P ui fn (exec (load_data_on_thread P j) st)) = Ret (Some v)
  /\ (subject_dirty (env st) (log (exec (load_data_on_thread P j) st)) = false ->
      tasks (exec (get_data P ui fn) (exec (load_data_on_thread P j) st))
      = tasks st).
Proof.
  intros Ha Hj Hd Hc.
  destruct P as [name calc dflt].
  destruct st as [[alive sd cl outs od] ip fe cv dirty ts rs l].
  destruct j as [jui jouts f]. simpl in Ha, Hj, Hd, Hc. subst alive jouts.
  destruct f as [f|]; unfold added; evaluate; new_events;
    repeat split; try reflexivity; try intros Hs;
    match goal with
    | |- context [sd ?l'] => destruct (sd l') eqn:Es
    end;
    try discriminate Hs;
    destruct cl, outs as [|? [|? ?]]; evaluate; reflexivity.
Qed.

(** X6: a computation that returns none counts as no result.  When the
    raw data is there but [get_calculated_data] returns none, the job
    first stores none in the item's slot and marks the local flag clean,
    then removes the slot and resets the local cache and flag to none,
    passes the default value to the completion function and ends as
    usual; [get_data] then returns the default value. *)
Theorem computed_none_clears_cache (P : processor) (st : state) (j : job UI)
    (h : nat) (rest : list nat) (d : Raw) (ui : UI) (fn : option nat) :
  item_alive (env st) = true ->
  job_outputs j = h :: rest ->
  output_data (env st) h = Some d ->
  get_calculated_data P (job_ui j) d = Ret None ->
  load_data_on_thread P j st = (Ret tt, exec (load_data_on_thread P j) st)
  /\ added st (exec (load_data_on_thread P j) st)
     = [Sleep; Compute (job_ui j) d;
        ItemCall (cache_property_name P) (SetCachedValue None);
        WriteCachedValue None; WriteDirty (Some false);
        ItemCall (cache_property_name P) RemoveCachedValue;
        WriteCachedValue None; WriteDirty None]
       ++ match job_completion j with
          | Some f => [Completion f (get_default_data P)]
          | None => []
          end
       ++ [Acquire; WriteInProgress false; Release; FinishSet]
  /\ cached_value (exec (load_data_on_thread P j) st) = None
  /\ cached_value_dirty (exec (load_data_on_thread P j) st) = None
  /\ in_progress (exec (load_data_on_thread P j) st) = false
  /\ finish_event (exec (load_data_on_thread P j) st) = true
  /\ fst (get_data P ui fn (exec (load_data_on_thread P j) st))
     = Ret (get_default_data P).
Proof.
  intros Ha Hj Hd Hc.
  destruct P as [name calc dflt].
  destruct st as [[alive sd cl outs od] ip fe cv dirty ts rs l].
  destruct j as [jui jouts f]. simpl in Ha, Hj, Hd, Hc. subst alive jouts.
  destruct f as [f|]; unfold added; evaluate; new_events;
    repeat split; try reflexivity;
    match goal with
    | |- context [sd ?l'] => destruct (sd l') eqn:Es
    end;
    destruct cl, outs as [|? [|? ?]]; evaluate; reflexivity.
Qed.

End Facts.

(** ** Runs *)


(** X3, on a run: the flag is made dirty, the item goes away, [get_data]
    fails; with an item there again, nothing is scheduled and [close]
    waits. *)
Lemma schedule_without_item_blocks_close_witness :
  fst (get_data doubling 1 None
         (run doubling [SetCachedValueDirtyOp;
                        World (world_of false true false (Some 5))]
            (init (world_of true true false (Some 5)))))
  = Raise AttributeError
  /\ close (run doubling [World (world_of true true false (Some 5));
                          GetData 1 None; RunTask]
              (exec (get_data doubling 1 None)
                 (run doubling [SetCachedValueDirtyOp;
                                World (world_of false true false (Some 5))]
                    (init (world_of true true false (Some 5))))))
     = None.
Proof.
  destruct (schedule_without_item_blocks_close nat nat nat doubling
              (run doubling [SetCachedValueDirtyOp;
                             World (world_of false true false (Some 5))]
                 (init (world_of true true false (Some 5))))
              1 None
              [World (world_of true true false (Some 5));
               GetData 1 None; RunTask]
              eq_refl eq_refl eq_refl eq_refl eq_refl eq_refl)
    as (H1 & _ & _ & H2).
  split; [exact H1 | exact H2].
Defined.

(** X4, on a new instance whose item reports the slot clean. *)
Lemma dirty_triggers_one_job_witness :
  tasks (run doubling [SetCachedValueDirtyOp; GetData 1 None; GetData 2 (Some 3)]
           (init (world_of true false false (Some 5))))
  = [mkJob 1 [0] None].
Proof.
  destruct (dirty_triggers_one_job nat nat nat doubling
              (init (world_of true false false (Some 5))) 1 2 None (Some 3)
              eq_refl eq_refl eq_refl eq_refl) as (_ & _ & _ & H).
  exact H.
Defined.

(** X5, on a run: 5 is doubled, cached and read back. *)
Lemma computed_value_is_cached_witness :
  cached_value
    (exec (load_data_on_thread doubling (mkJob 1 [0] (Some 4)))
       (exec (get_data doubling 1 (Some 4))
          (init (world_of true true false (Some 5)))))
  = Some 10
  /\ fst (get_data doubling 2 None
            (exec (load_data_on_thread doubling (mkJob 1 [0] (Some 4)))
               (exec (get_data doubling 1 (Some 4))
                  (init (world_of true true false (Some 5))))))
     = Ret (Some 10).
Proof.
  destruct (computed_value_is_cached nat nat nat doubling
              (exec (get_data doubling 1 (Some 4))
                 (init (world_of true true false (Some 5))))
              (mkJob 1 [0] (Some 4)) 0 [] 5 10 2 None
              eq_refl eq_refl eq_refl eq_refl)
    as (_ & _ & H1 & _ & _ & _ & H2 & _).
  split; [exact H1 | exact H2].
Defined.

(** X6, on a run of an instance whose computation returns none. *)
Lemma computed_none_clears_cache_witness :
  cached_value_dirty
    (exec (load_data_on_thread no_result (mkJob 1 [0] None))
       (exec (get_data no_result 1 None)
          (init (world_of true true false (Some 5)))))
  = None
  /\ fst (get_data no_result 2 None
            (exec (load_data_on_thread no_result (mkJob 1 [0] None))
               (exec (get_data no_result 1 None)
                  (init (world_of true true false (Some 5))))))
     = Ret None.
Proof.
  destruct (computed_none_clears_cache nat nat nat no_result
              (exec (get_data no_result 1 None)
                 (init (world_of true true false (Some 5))))
              (mkJob 1 [0] None) 0 [] 5 2 None
              eq_refl eq_refl eq_refl eq_refl)
    as (_ & _ & _ & H1 & _ & _ & H2).
  split; [exact H1 | exact H2].
Defined.

End DataItemProcessorMore.

(* ===================================================================== *)
(** * Properties of the display item lists *)
(* ===================================================================== *)

Module PyListFacts.
Import PyList.

Section Facts.

Variables A B : Type.

Lemma insert_position_le (n : nat) (i : Z) : insert_position n i <= n.
Proof.
  unfold insert_position. destruct (i <? 0)%Z eqn:E; lia.
Qed.

Lemma insert_position_inside (n : nat) (i : Z) :
  (0 <= i <= Z.of_nat n)%Z -> insert_position n i = Z.to_nat i.
Proof.
  intros H. unfold insert_position.
  destruct (i <? 0)%Z eqn:E; [apply Z.ltb_lt in E; lia|].
  rewrite Z.min_l by lia. reflexivity.
Qed.

Lemma position_lt (n : nat) (i : Z) (k : nat) :
  position n i = Some k -> k < n.
Proof.
  unfold position.
  destruct (i <? 0)%Z eqn:E1.
  - destruct (i + Z.of_nat n <? 0)%Z eqn:E2; [discriminate|].
    intros [= <-]. apply Z.ltb_lt in E1. apply Z.ltb_ge in E2. lia.
  - destruct (i <? Z.of_nat n)%Z eqn:E2; [|discriminate].
    intros [= <-]. apply Z.ltb_ge in E1. apply Z.ltb_lt in E2. lia.
Qed.

Lemma position_inside (n : nat) (i : Z) :
  (0 <= i < Z.of_nat n)%Z -> position n i = Some (Z.to_nat i).
Proof.
  intros H. unfold position.
  destruct (i <? 0)%Z eqn:E1; [apply Z.ltb_lt in E1; lia|].
  destruct (i <? Z.of_nat n)%Z eqn:E2; [reflexivity|].
  apply Z.ltb_ge in E2. lia.
Qed.

Lemma length_insert (l : list A) (i : Z) (x : A) :
  length (insert l i x) = S (length l).
Proof.
  unfold insert. pose proof (insert_position_le (length l) i) as H.
  rewrite length_app. simpl. rewrite length_firstn, length_skipn. lia.
Qed.

Lemma map_insert (f : A -> B) (l : list A) (i : Z) (x : A) :
  map f (insert l i x) = insert (map f l) i (f x).
Proof.
  unfold insert. rewrite map_app, length_map. simpl.
  rewrite firstn_map, skipn_map. reflexivity.
Qed.

Lemma filter_insert (p : A -> bool) (l : list A) (i : Z) (x : A) :
  length (filter p (insert l i x))
  = length (filter p l) + (if p x then 1 else 0).
Proof.
  unfold insert. set (k := insert_position (length l) i).
  rewrite <- (firstn_skipn k l) at 3.
  rewrite !filter_app, !length_app. simpl.
  destruct (p x); simpl; lia.
Qed.

Lemma firstn_middle (l1 l2 : list A) (x : A) :
  firstn (length l1) (l1 ++ x :: l2) = l1.
Proof.
  induction l1 as [|y l1 IH]; simpl; [reflexivity | now rewrite IH].
Qed.

Lemma skipn_middle (l1 l2 : list A) (x : A) :
  skipn (S (length l1)) (l1 ++ x :: l2) = l2.
Proof.
  induction l1 as [|y l1 IH]; simpl; [reflexivity | exact IH].
Qed.

Lemma item_delete (l : list A) (i : Z) :
  match item l i, delete l i with
  | Some x, Some l' =>
      length l = S (length l')
      /\ (forall p : A -> bool,
            length (filter p l)
            = length (filter p l') + (if p x then 1 else 0))
  | None, None => position (length l) i = None
  | _, _ => False
  end.
Proof.
  unfold item, delete.
  destruct (position (length l) i) as [k|] eqn:E; [|reflexivity].
  apply position_lt in E.
  destruct (nth_error l k) as [x|] eqn:En.
  - apply nth_error_split in En. destruct En as (l1 & l2 & -> & <-).
    rewrite firstn_middle, skipn_middle. split.
    + rewrite !length_app. simpl. lia.
    + intros p. rewrite !filter_app, !length_app. simpl.
      destruct (p x); simpl; lia.
  - apply nth_error_None in En. lia.
Qed.

Lemma map_item (f : A -> B) (l : list A) (i : Z) :
  item (map f l) i = option_map f (item l i).
Proof.
  unfold item. rewrite length_map.
  destruct (position (length l) i); [|reflexivity].
  apply nth_error_map.
Qed.

Lemma map_delete (f : A -> B) (l : list A) (i : Z) :
  delete (map f l) i = option_map (map f) (delete l i).
Proof.
  unfold delete. rewrite length_map.
  destruct (position (length l) i); [|reflexivity].
  cbn [option_map]. rewrite map_app, firstn_map, skipn_map. reflexivity.
Qed.

(** Deleting at the index where an element was just inserted gives the
    list back, for an index from 0 to the length of the list. *)
Lemma delete_insert (l : list A) (i : Z) (x : A) :
  (0 <= i <= Z.of_nat (length l))%Z ->
  item (insert l i x) i = Some x /\ delete (insert l i x) i = Some l.
Proof.
  intros H. unfold item, delete. rewrite length_insert.
  rewrite position_inside by lia.
  unfold insert. rewrite insert_position_inside by lia.
  set (k := Z.to_nat i). assert (Hk : k <= length l) by lia.
  assert (Hf : length (firstn k l) = k) by (rewrite length_firstn; lia).
  split.
  - rewrite nth_error_app2 by lia. rewrite Hf, Nat.sub_diag. reflexivity.
  - assert (G : forall l1 l2 : list A,
               length l1 = k ->
               firstn k (l1 ++ x :: l2) ++ skipn (S k) (l1 ++ x :: l2)
               = l1 ++ l2).
    { intros l1 l2 <-. now rewrite firstn_middle, skipn_middle. }
    rewrite G by exact Hf. rewrite firstn_skipn. reflexivity.
Qed.

End Facts.
End PyListFacts.

Module DataListControllerFacts.
Import DataListController.

Lemma times_closed_snoc id l e :
  times_closed id (l ++ [e])
  = times_closed id l + (if is_close_of id e then 1 else 0).
Proof.
  unfold times_closed. rewrite filter_app, length_app. simpl.
  destruct (is_close_of id e); reflexivity.
Qed.

Ltac fields :=
  cbn [display_items update_listeners changed_display_items
       selection_listener next_id effects after].

Lemma aligned_new : aligned new_controller.
Proof.
  split; [reflexivity|]. intros id. reflexivity.
Qed.

Lemma aligned_inserted d i c :
  aligned c ->
  exists c', display_item_inserted d i c = Done c' /\ aligned c'.
Proof.
  destruct c as [[items|] [ls|] ch sl n eff]; unfold aligned; fields;
    try tauto.
  intros [Hm Hc]. eexists. split; [reflexivity|].
  unfold with_effect; fields. split.
  - rewrite PyListFacts.map_insert, Hm. reflexivity.
  - intros id. rewrite PyListFacts.filter_insert.
    rewrite !times_closed_snoc. specialize (Hc id).
    unfold has_id at 2. cbn [is_close_of listener_id].
    destruct (Nat.eqb_spec n id) as [->|Hne].
    + rewrite Nat.ltb_irrefl in Hc.
      replace (id <? S id) with true by (symmetry; apply Nat.ltb_lt; lia).
      lia.
    + destruct (Nat.ltb_spec id n); destruct (Nat.ltb_spec id (S n)); lia.
Qed.

Lemma aligned_removed i c :
  aligned c ->
  (exists c', display_item_removed i c = Done c' /\ aligned c')
  \/ (display_item_removed i c = Failed ListIndexError c
      /\ exists items, display_items c = Some items
                       /\ PyList.position (length items) i = None).
Proof.
  destruct c as [[items|] [ls|] ch sl n eff]; unfold aligned; fields;
    try tauto.
  intros [Hm Hc]. unfold display_item_removed; fields.
  pose proof (PyListFacts.item_delete _ ls i) as Hl.
  pose proof (PyListFacts.map_item _ _ listens_to ls i) as Hmi.
  pose proof (PyListFacts.map_delete _ _ listens_to ls i) as Hmd.
  rewrite Hm in Hmi, Hmd.
  destruct (PyList.item ls i) as [l|], (PyList.delete ls i) as [ls'|];
    try contradiction.
  - left. cbn [option_map] in Hmd. rewrite Hmd. eexists.
    split; [reflexivity|].
    unfold with_effect; fields. split; [reflexivity|].
    intros id. destruct Hl as [_ Hf]. specialize (Hf (has_id id)).
    specialize (Hc id). rewrite !times_closed_snoc. cbn [is_close_of].
    unfold has_id in Hf at 3. lia.
  - right. split; [reflexivity|]. exists items. split; [reflexivity|].
    rewrite <- Hm, length_map. exact Hl.
Qed.

Lemma aligned_change ch c : aligned c -> aligned (apply_change c ch).
Proof.
  intros H. destruct ch as [d i|i| |]; cbn [apply_change].
  - destruct (aligned_inserted d i c H) as (c' & -> & H'). exact H'.
  - destruct (aligned_removed i c H) as [(c' & -> & H')|[-> _]]; assumption.
  - destruct c as [[items|] [ls|] chd sl n eff]; unfold aligned in *;
      unfold display_item_needs_update, with_effect; fields;
      revert H; fields; try tauto.
    intros [Hm Hc]. split; [exact Hm|].
    intros id. rewrite !times_closed_snoc. cbn [is_close_of].
    specialize (Hc id). lia.
  - destruct c as [[items|] [ls|] [|] sl n eff]; unfold aligned in *;
      unfold update_display_items, with_effect; fields;
      revert H; fields; try tauto;
      intros [Hm Hc]; (split; [exact Hm|]);
      intros id; rewrite !times_closed_snoc; cbn [is_close_of];
      specialize (Hc id); lia.
Qed.

Lemma aligned_changes chs : forall c, aligned c -> aligned (apply_changes chs c).
Proof.
  induction chs as [|ch chs IH]; intros c H; simpl; auto using aligned_change.
Qed.


Lemma selection_listener_kept chs :
  forall c, selection_listener (apply_changes chs c) = selection_listener c.
Proof.
  induction chs as [|ch chs IH]; intros c; simpl; [reflexivity|].
  rewrite IH. destruct ch as [d i|i| |]; cbn [apply_change].
  - destruct c as [[items|] [ls|] chd sl n eff]; reflexivity.
  - destruct c as [[items|] [ls|] chd sl n eff];
      unfold display_item_removed; fields; try reflexivity;
      destruct (PyList.item ls i), (PyList.delete ls i); try reflexivity;
      destruct (PyList.delete items i); reflexivity.
  - reflexivity.
  - unfold update_display_items.
    destruct (changed_display_items (with_effect MutexTaken c)); reflexivity.
Qed.

Lemma times_closed_all id eff (ls : list listener) :
  times_closed id (eff ++ map (fun l => ListenerClosed (listener_id l)) ls)
  = times_closed id eff + length (filter (has_id id) ls).
Proof.
  unfold times_closed. rewrite filter_app, length_app. f_equal.
  induction ls as [|l ls IH]; simpl; [reflexivity|].
  unfold has_id at 1. destruct (listener_id l =? id); simpl; now rewrite IH.
Qed.

(** X8: the display items and their listeners stay aligned.  After any
    sequence of [display_item_inserted] and [display_item_removed] calls,
    with any indexes, and of update notifications on a new controller, the
    list of listeners and the list of display items are both there, the
    listener at each position is the one that was made for the display item
    at that position, and every listener made so far is either in the list
    and not closed, or no longer in the list and closed exactly once. *)
Theorem display_lists_stay_aligned (chs : list change) :
  exists items ls,
    display_items (apply_changes chs new_controller) = Some items
    /\ update_listeners (apply_changes chs new_controller) = Some ls
    /\ map listens_to ls = items
    /\ forall id,
         times_closed id (effects (apply_changes chs new_controller))
         + length (filter (has_id id) ls)
         = if id <? next_id (apply_changes chs new_controller) then 1 else 0.
Proof.
  pose proof (aligned_changes chs new_controller aligned_new) as H.
  unfold aligned in H.
  destruct (display_items (apply_changes chs new_controller)) as [items|];
    [|contradiction].
  destruct (update_listeners (apply_changes chs new_controller)) as [ls|];
    [|contradiction].
  exists items, ls. tauto.
Qed.

(** X9: [close] leaves no listener open.  After any such sequence of
    calls, [close] of the list controller succeeds, clears the pending
    task, closes the selection listener, and leaves both lists None with
    every listener that was ever made closed exactly once. *)
Theorem close_closes_every_listener (chs : list change) :
  exists c',
    close (apply_changes chs new_controller) = Done c'
    /\ display_items c' = None
    /\ update_listeners c' = None
    /\ selection_listener c' = false
    /\ next_id c' = next_id (apply_changes chs new_controller)
    /\ forall id, times_closed id (effects c')
                  = if id <? next_id c' then 1 else 0.
Proof.
  destruct (display_lists_stay_aligned chs) as (items & ls & Hi & Hl & Hm & Hc).
  pose proof (selection_listener_kept chs new_controller) as Hs.
  unfold close, with_effect; fields. rewrite Hs, Hl. cbn [new_controller selection_listener].
  eexists. split; [reflexivity|]. fields. repeat split.
  intros id. rewrite times_closed_all, !times_closed_snoc. cbn [is_close_of].
  specialize (Hc id). lia.
Qed.

(** X10: removal undoes insertion at the same index.  On a controller whose
    two lists have the same length, for an index from 0 to that length,
    [display_item_inserted] followed by [display_item_removed] at the same
    index gives both lists back; the listener made for the inserted item
    is the one that is closed. *)
Theorem removal_undoes_insertion (c : controller) (items : list DisplayItem)
    (ls : list listener) (d : DisplayItem) (i : Z) :
  display_items c = Some items ->
  update_listeners c = Some ls ->
  length ls = length items ->
  (0 <= i <= Z.of_nat (length items))%Z ->
  display_item_removed i (after (display_item_inserted d i c))
  = Done (mkController (Some items) (Some ls) (changed_display_items c)
            (selection_listener c) (S (next_id c))
            (effects c ++ [NewListener d (next_id c); ViewUpdated;
                           ListenerClosed (next_id c); ViewUpdated])).
Proof.
  destruct c as [[items0|] [ls0|] chd sl n eff]; cbn [display_items update_listeners];
    intros Hi Hl Hlen Hr; try discriminate.
  injection Hi as ->. injection Hl as ->.
  unfold display_item_inserted, display_item_removed, with_effect; fields.
  destruct (PyListFacts.delete_insert _ ls i (mkListener n d)) as [E1 E2];
    [lia|].
  destruct (PyListFacts.delete_insert _ items i d) as [_ E3]; [lia|].
  rewrite E1, E2. fields. rewrite E3. cbn [listener_id].
  repeat rewrite <- app_assoc. reflexivity.
Qed.

(** X11: an index out of range removes nothing.  After any sequence of
    calls, [display_item_removed] with an index that does not address one
    of the [n] display items (counting from the end when negative) raises
    IndexError and leaves the controller as it was: no listener is closed
    and the view is not updated; with an index that addresses one, it
    succeeds and leaves [n - 1] display items. *)
Theorem removal_out_of_range (chs : list change) (i : Z) :
  match display_item_count (apply_changes chs new_controller) with
  | Some n =>
      match PyList.position n i with
      | None =>
          display_item_removed i (apply_changes chs new_controller)
          = Failed ListIndexError (apply_changes chs new_controller)
      | Some _ =>
          exists c',
            display_item_removed i (apply_changes chs new_controller) = Done c'
            /\ display_item_count c' = Some (n - 1)
      end
  | None => False
  end.
Proof.
  pose proof (aligned_changes chs new_controller aligned_new) as H.
  generalize dependent (apply_changes chs new_controller). intros c H.
  destruct c as [[items|] [ls|] chd sl n eff]; unfold aligned in H;
    revert H; fields; try tauto. intros [Hm Hc].
  assert (Hlen : length ls = length items)
    by (rewrite <- Hm, length_map; reflexivity).
  unfold display_item_count, display_item_removed, with_effect; fields.
  unfold PyList.item, PyList.delete. rewrite Hlen.
  destruct (PyList.position (length items) i) as [k|] eqn:E;
    [|reflexivity].
  apply PyListFacts.position_lt in E.
  destruct (nth_error ls k) as [l|] eqn:En;
    [|apply nth_error_None in En; lia].
  fields. eexists. split; [reflexivity|]. fields. f_equal.
  rewrite length_app, length_firstn, length_skipn. lia.
Qed.

(** X12: update notifications coalesce.  However many display items ask
    for an update (at least one) before the scheduled task runs, the task
    updates the view once and lowers the flag; run again with no new
    request, it leaves the view alone. *)
Theorem update_requests_coalesce (c : controller) (n : nat) :
  view_updates (effects (apply_changes (repeat NeedsUpdate (S n)) c))
  = view_updates (effects c)
  /\ view_updates
       (effects (apply_changes (repeat NeedsUpdate (S n) ++ [UpdateTask]) c))
     = S (view_updates (effects c))
  /\ changed_display_items
       (apply_changes (repeat NeedsUpdate (S n) ++ [UpdateTask]) c) = false
  /\ view_updates
       (effects (apply_changes
                   (repeat NeedsUpdate (S n) ++ [UpdateTask; UpdateTask]) c))
     = S (view_updates (effects c)).
Proof.
  assert (G : forall k c0,
             view_updates (effects (apply_changes (repeat NeedsUpdate k) c0))
             = view_updates (effects c0)
             /\ (0 < k ->
                 changed_display_items
                   (apply_changes (repeat NeedsUpdate k) c0) = true)).
  { induction k as [|k IH]; intros c0; simpl; [split; [reflexivity|lia]|].
    destruct (IH (display_item_needs_update c0)) as [E1 E2].
    rewrite E1. split.
    - unfold display_item_needs_update, with_effect, view_updates; fields.
      rewrite !filter_app, !length_app. simpl. lia.
    - intros _. destruct k; [reflexivity|]. apply E2. lia. }
  destruct (G (S n) c) as [E1 E2]. specialize (E2 (Nat.lt_0_succ n)).
  split; [exact E1|].
  unfold apply_changes in *. rewrite !fold_left_app.
  set (c1 := fold_left apply_change (repeat NeedsUpdate (S n)) c) in *.
  cbn [fold_left apply_change].
  unfold update_display_items, with_effect; fields. rewrite E2. fields.
  unfold view_updates in *. rewrite !filter_app, !length_app. simpl.
  repeat split; lia.
Qed.

(** X10, on a controller with the display items 7 and 8: item 9 is
    inserted at index 1 and removed again. *)
Lemma removal_undoes_insertion_witness :
  display_items
    (after (display_item_removed 1
              (after (display_item_inserted 9 1
                        (apply_changes [Inserted 7 0; Inserted 8 1]
                           new_controller)))))
  = Some [7; 8].
Proof.
  rewrite (removal_undoes_insertion
             (apply_changes [Inserted 7 0; Inserted 8 1] new_controller)
             [7; 8] [mkListener 0 7; mkListener 1 8] 9 1
             eq_refl eq_refl eq_refl ltac:(simpl; lia)).
  reflexivity.
Defined.

End DataListControllerFacts.

(* ===================================================================== *)
(** * Properties of the data browser selection *)
(* ===================================================================== *)

Module DataBrowserControllerFacts.
Import DataBrowserController.

Lemma differs_same (d : option DataItem) : differs d d = false.
Proof.
  destruct d as [x|]; simpl; [now rewrite Nat.eqb_refl | reflexivity].
Qed.

Lemma group_differs_same (g : option DataGroup) : group_differs g g = false.
Proof.
  destruct g as [x|]; simpl; [now rewrite Nat.eqb_refl | reflexivity].
Qed.

Lemma filter_differs_same (f : option string) : filter_differs f f = false.
Proof.
  destruct f as [x|]; simpl; [now rewrite String.eqb_refl | reflexivity].
Qed.

Lemma drop_calls (l r : list call) : skipn (length l) (l ++ r) = r.
Proof.
  induction l as [|x l IH]; simpl; auto.
Qed.

Lemma drop_all_calls (l : list call) : skipn (length l) l = [].
Proof.
  induction l as [|x l IH]; simpl; auto.
Qed.

Lemma group_differs_false (a b : option DataGroup) :
  group_differs a b = false -> a = b.
Proof.
  destruct a, b; simpl; try discriminate; auto.
  intros H. apply negb_false_iff, Nat.eqb_eq in H. congruence.
Qed.

Lemma filter_differs_false (a b : option string) :
  filter_differs a b = false -> a = b.
Proof.
  destruct a, b; simpl; try discriminate; auto.
  intros H. apply negb_false_iff, String.eqb_eq in H. congruence.
Qed.

Lemma fields_filter_changed g f b :
  fields (fire_filter_changed g f b) = fields b.
Proof.
  unfold fire_filter_changed, data_panel_filter_changed.
  destruct g; [reflexivity|].
  destruct (negb (filter_differs f (Some "latest-session"%string)));
    [reflexivity|].
  destruct (negb (filter_differs f (Some "temporary"%string))); reflexivity.
Qed.

Lemma fields_selection_changed d b :
  fields (fire_selection_changed d b) = fields b.
Proof.
  unfold fire_selection_changed, data_panel_selection_changed.
  cbn [view_index record_call panel_display_items].
  destruct (view_index b =? 0);
    destruct (data_item_index_from 0 d (panel_display_items b)); reflexivity.
Qed.

(** What [set_data_browser_selection] leaves in the fields. *)
Lemma selection_fields (g : option DataGroup) (d : option DataItem)
    (f : option string) (b : browser) :
  blocked b = false ->
  fields (set_data_browser_selection g d f b)
  = (focused b, g,
     (if differs (current_data_item b) d then d else current_data_item b),
     effective_filter d f, selected_display_items b, false, panel_blocked b,
     panel_display_items b, view_index b).
Proof.
  intros Hb. unfold set_data_browser_selection. rewrite Hb. cbn [negb].
  fold (effective_filter d f).
  cbn [data_group filter_id set_blocked].
  set (changed := group_differs g (data_group b)
                  || filter_differs (effective_filter d f) (filter_id b)).
  set (b2 := if changed then _ else _).
  assert (H2 : fields b2
               = (focused b, g, current_data_item b, effective_filter d f,
                  selected_display_items b, true, panel_blocked b,
                  panel_display_items b, view_index b)).
  { subst b2. destruct changed eqn:Ec.
    - rewrite fields_filter_changed. reflexivity.
    - subst changed. apply orb_false_elim in Ec. destruct Ec as [Eg Ef].
      apply group_differs_false in Eg. apply filter_differs_false in Ef.
      unfold fields. cbn. rewrite Eg, Ef. reflexivity. }
  assert (Hc : current_data_item b2 = current_data_item b)
    by (unfold fields in H2; congruence).
  rewrite Hc.
  set (b3 := if differs (current_data_item b) d then _ else b2).
  assert (H3 : fields b3
               = (focused b, g,
                  (if differs (current_data_item b) d then d
                   else current_data_item b),
                  effective_filter d f, selected_display_items b, true,
                  panel_blocked b, panel_display_items b, view_index b)).
  { subst b3. destruct (differs (current_data_item b) d).
    - unfold fields in *. cbn. congruence.
    - exact H2. }
  set (b4 := if changed || _ then _ else b3).
  assert (H4 : fields b4 = fields b3).
  { subst b4. destruct (changed || _); [apply fields_selection_changed|reflexivity]. }
  rewrite H3 in H4. unfold fields in *. cbn. congruence.
Qed.


Lemma unblock_block (b : browser) :
  blocked b = false -> set_blocked false (set_blocked true b) = b.
Proof.
  destruct b. simpl. intros ->. reflexivity.
Qed.

(** X13: selecting the same thing again does nothing.  In any state, a
    second [set_data_browser_selection] with the same data group, data
    item and filter leaves the controller as the first one left it: no
    field changes, the document controller is not called and no event is
    fired. *)
Theorem selection_is_idempotent (g : option DataGroup) (d : option DataItem)
    (f : option string) (b : browser) :
  set_data_browser_selection g d f (set_data_browser_selection g d f b)
  = set_data_browser_selection g d f b.
Proof.
  destruct (blocked b) eqn:Hb.
  - unfold set_data_browser_selection at 2. rewrite Hb. cbn [negb].
    unfold set_data_browser_selection. rewrite Hb. reflexivity.
  - pose proof (selection_fields g d f b Hb) as H.
    generalize dependent (set_data_browser_selection g d f b).
    intros b1 H. unfold fields in H.
    assert (H1 : blocked b1 = false) by congruence.
    assert (H2 : data_group b1 = g) by congruence.
    assert (H3 : filter_id b1 = effective_filter d f) by congruence.
    assert (H4 : differs (current_data_item b1) d = false).
    { replace (current_data_item b1)
        with (if differs (current_data_item b) d then d
              else current_data_item b) by congruence.
      destruct (differs (current_data_item b) d) eqn:E;
        [apply differs_same | exact E]. }
    clear H. destruct b1 as [fo dg cd fi sel bl pb items vi cs].
    cbn [blocked data_group filter_id current_data_item] in H1, H2, H3, H4.
    subst bl dg fi.
    unfold set_data_browser_selection.
    cbn [blocked negb set_blocked data_group filter_id current_data_item].
    fold (effective_filter d f).
    rewrite group_differs_same, filter_differs_same. cbn [orb].
    unfold set_blocked.
    cbn [focused data_group current_data_item filter_id
         selected_display_items blocked panel_blocked panel_display_items
         view_index calls].
    rewrite H4. reflexivity.
Qed.

Lemma no_index_for_none (items : list DataItem) (k : nat) :
  data_item_index_from k None items = None.
Proof.
  revert k. induction items as [|x items IH]; intros k; simpl; auto.
Qed.

Lemma library_rows_app (l1 l2 : list call) :
  library_rows (l1 ++ l2) = library_rows l1 ++ library_rows l2.
Proof.
  unfold library_rows. apply flat_map_app.
Qed.

Lemma adds_same (b b' : browser) : calls b' = calls b -> adds b b' [].
Proof.
  intros H. exists []. rewrite app_nil_r. auto.
Qed.

Lemma adds_then (b1 b2 b3 : browser) (r1 r2 : list Z) :
  adds b1 b2 r1 -> adds b2 b3 r2 -> adds b1 b3 (r1 ++ r2).
Proof.
  intros (X & E1 & R1) (Y & E2 & R2). exists (X ++ Y).
  rewrite E2, E1, <- app_assoc, library_rows_app, R1, R2. auto.
Qed.

Lemma adds_call (e : call) (b : browser) :
  adds b (record_call e b) (library_rows [e]).
Proof.
  exists [e]. auto.
Qed.

Lemma adds_filter_handler g f b :
  adds b (data_panel_filter_changed g f b)
    match g with
    | Some _ => []
    | None =>
        [if negb (filter_differs f (Some "latest-session"%string)) then 2%Z
         else if negb (filter_differs f (Some "temporary"%string)) then 1%Z
         else 0%Z]
    end.
Proof.
  unfold data_panel_filter_changed. destruct g as [x|].
  - exists [LibraryClearCurrentRow; GroupSetCurrentRow x].
    unfold record_call. cbn [calls]. rewrite <- app_assoc. auto.
  - destruct (negb (filter_differs f (Some "latest-session"%string)));
      [|destruct (negb (filter_differs f (Some "temporary"%string)))];
      eexists [GroupClearCurrentRow; _]; unfold record_call; cbn [calls];
      rewrite <- app_assoc; split; reflexivity.
Qed.

Lemma adds_selection_handler d b :
  adds b (data_panel_selection_changed d b) [].
Proof.
  unfold data_panel_selection_changed.
  destruct (view_index b =? 0);
    destruct (data_item_index_from 0 d (panel_display_items b));
    unfold record_call; cbn [calls];
    eexists; rewrite <- ?app_assoc; split; reflexivity.
Qed.

(** The calls that [set_data_browser_selection] adds, and the library rows
    among them. *)
Lemma selection_adds (g : option DataGroup) (d : option DataItem)
    (f : option string) (b : browser) :
  blocked b = false ->
  adds b (set_data_browser_selection g d f b)
    (if group_differs g (data_group b)
        || filter_differs (effective_filter d f) (filter_id b)
     then match g with
          | Some _ => []
          | None =>
              [if negb (filter_differs (effective_filter d f)
                          (Some "latest-session"%string)) then 2%Z
               else if negb (filter_differs (effective_filter d f)
                               (Some "temporary"%string)) then 1%Z
               else 0%Z]
          end
     else []).
Proof.
  intros Hb. unfold set_data_browser_selection. rewrite Hb. cbn [negb].
  fold (effective_filter d f). set (f' := effective_filter d f).
  cbn [data_group filter_id set_blocked].
  set (changed := group_differs g (data_group b) || filter_differs f' (filter_id b)).
  set (rows := match g with Some _ => [] | None => _ end).
  set (b1 := set_blocked true b).
  set (b2 := if changed then _ else b1).
  assert (H2 : adds b b2 (if changed then rows else [])).
  { subst b2. destruct changed.
    - replace rows with ([] ++ [] ++ [] ++ [] ++ rows) by reflexivity.
      eapply adds_then; [apply (adds_same b b1); reflexivity|].
      eapply adds_then;
        [apply (adds_same b1 (set_group_and_filter g f' b1)); reflexivity|].
      eapply adds_then; [apply (adds_call (SetDataGroupOrFilter g f'))|].
      eapply adds_then; [apply (adds_call Periodic)|].
      unfold fire_filter_changed.
      replace rows with ([] ++ rows) by reflexivity.
      eapply adds_then; [apply (adds_call (FilterChangedFired g f'))|].
      apply adds_filter_handler.
    - apply adds_same. reflexivity. }
  set (b3 := if differs (current_data_item b2) d then _ else b2).
  assert (H3 : adds b2 b3 []).
  { subst b3. destruct (differs (current_data_item b2) d);
      apply adds_same; reflexivity. }
  set (b4 := if changed || _ then _ else b3).
  assert (H4 : adds b3 b4 []).
  { subst b4. destruct (changed || _); [|apply adds_same; reflexivity].
    unfold fire_selection_changed.
    change (@nil Z) with (library_rows [SelectionChangedFired d] ++ []).
    eapply adds_then; [apply (adds_call (SelectionChangedFired d))|].
    apply adds_selection_handler. }
  replace (if changed then rows else [])
    with ((if changed then rows else []) ++ [] ++ [] ++ [])
    by (rewrite !app_nil_r; reflexivity).
  eapply adds_then; [exact H2|].
  eapply adds_then; [exact H3|].
  eapply adds_then; [exact H4|].
  apply adds_same. reflexivity.
Qed.

(** X14: the library row that is clicked is the row that gets selected.
    When neither the panel nor the controller is in a call already, a
    click on a library row makes the controller show the whole library
    with the filter of that row (row 2: latest session, row 1: temporary,
    any other row: none) and no data item; and if that changes the data
    group or the filter, the listener of the panel clears the row of the
    data group tree and selects one library row: row 2, 1 or 0, which is
    the row that was clicked when that was one of the three. *)
Theorem library_row_round_trip (b : browser) (r pr pid : Z)
    (rest : list (Z * Z * Z)) :
  blocked b = false ->
  panel_blocked b = false ->
  data_group (library_widget_selection_changed ((r, pr, pid) :: rest) b) = None
  /\ current_data_item
       (library_widget_selection_changed ((r, pr, pid) :: rest) b) = None
  /\ filter_id (library_widget_selection_changed ((r, pr, pid) :: rest) b)
     = (if (r =? 2)%Z then Some "latest-session"%string
        else if (r =? 1)%Z then Some "temporary"%string else None)
  /\ blocked (library_widget_selection_changed ((r, pr, pid) :: rest) b) = false
  /\ panel_blocked
       (library_widget_selection_changed ((r, pr, pid) :: rest) b) = false
  /\ library_rows
       (calls_since b
          (library_widget_selection_changed ((r, pr, pid) :: rest) b))
     = if group_differs None (data_group b)
          || filter_differs
               (if (r =? 2)%Z then Some "latest-session"%string
                else if (r =? 1)%Z then Some "temporary"%string else None)
               (filter_id b)
       then [if (r =? 2)%Z then 2%Z else if (r =? 1)%Z then 1%Z else 0%Z]
       else [].
Proof.
  intros Hb Hp.
  set (f := if (r =? 2)%Z then Some "latest-session"%string
            else if (r =? 1)%Z then Some "temporary"%string else None).
  assert (E : library_widget_selection_changed ((r, pr, pid) :: rest) b
              = set_panel_blocked false
                  (set_data_browser_selection None None f
                     (set_panel_blocked true b))).
  { unfold library_widget_selection_changed. rewrite Hp. cbn [negb]. subst f.
    destruct (r =? 2)%Z; [reflexivity|]. destruct (r =? 1)%Z; reflexivity. }
  rewrite E. clear E.
  assert (Hb1 : blocked (set_panel_blocked true b) = false) by exact Hb.
  pose proof (selection_fields None None f _ Hb1) as Hf.
  pose proof (selection_adds None None f _ Hb1) as Ha.
  generalize dependent (set_data_browser_selection None None f
                          (set_panel_blocked true b)).
  intros b1 Hf (X & Hc & Hr). unfold fields in Hf.
  cbn [set_panel_blocked focused data_group current_data_item filter_id
       selected_display_items blocked panel_blocked panel_display_items
       view_index calls effective_filter] in Hf, Hc, Hr.
  unfold calls_since.
  cbn [set_panel_blocked focused data_group current_data_item filter_id
       selected_display_items blocked panel_blocked panel_display_items
       view_index calls].
  rewrite Hc, drop_calls, Hr.
  assert (Hd : current_data_item b1 = None).
  { replace (current_data_item b1)
      with (if differs (current_data_item b) None then None
            else current_data_item b) by congruence.
    destruct (current_data_item b); reflexivity. }
  repeat split; try congruence.
  destruct (group_differs None (data_group b) || filter_differs f (filter_id b));
    [|reflexivity].
  subst f. destruct (r =? 2)%Z; [reflexivity|].
  destruct (r =? 1)%Z; reflexivity.
Qed.


(** X15: what a change of the selected display items does.  Outside a
    call of the controller, [selected_display_items_changed] stores the
    display items and keeps the data group; with no display item it
    clears the current data item; with one, that item becomes the current
    one, and the filter becomes "temporary" when the category of the item
    is "temporary"; with two or more it leaves the current data item and
    the filter as they are and calls nothing but the notification.  When
    the controller has the focus, the document controller is told the one
    selected data item, or none, as the last call. *)
Theorem display_selection_sync (b : browser) (items : list DataItem) :
  blocked b = false ->
  selected_display_items (selected_display_items_changed items b) = items
  /\ focused (selected_display_items_changed items b) = focused b
  /\ blocked (selected_display_items_changed items b) = false
  /\ data_group (selected_display_items_changed items b) = data_group b
  /\ match items with
     | [] =>
         current_data_item (selected_display_items_changed items b) = None
         /\ filter_id (selected_display_items_changed items b) = filter_id b
     | [x] =>
         differs (current_data_item (selected_display_items_changed items b))
           (Some x) = false
         /\ filter_id (selected_display_items_changed items b)
            = (if String.eqb (category x) "temporary"
               then Some "temporary"%string else filter_id b)
     | _ =>
         current_data_item (selected_display_items_changed items b)
         = current_data_item b
         /\ filter_id (selected_display_items_changed items b) = filter_id b
         /\ calls (selected_display_items_changed items b)
            = calls b ++ (if focused b then [NotifySelectedDataItem None]
                          else [])
     end
  /\ (focused b = true ->
      last (calls (selected_display_items_changed items b)) Periodic
      = NotifySelectedDataItem match items with
                               | [x] => Some x
                               | _ => None
                               end).
Proof.
  intros Hb.
  assert (G : forall g d f,
             g = data_group b -> f = filter_id b ->
             let b1 := set_data_browser_selection g d f b in
             let b2 := set_selected_display_items items
                         (if focused b1 then
                            record_call (NotifySelectedDataItem d) b1
                          else b1) in
             selected_display_items b2 = items
             /\ focused b2 = focused b
             /\ blocked b2 = false
             /\ data_group b2 = data_group b
             /\ current_data_item b2
                = (if differs (current_data_item b) d then d
                   else current_data_item b)
             /\ filter_id b2 = effective_filter d (filter_id b)
             /\ (focused b = true ->
                 last (calls b2) Periodic = NotifySelectedDataItem d)).
  { intros g d f -> ->. intros b1 b2.
    pose proof (selection_fields (data_group b) d (filter_id b) b Hb) as Hf.
    fold b1 in Hf. unfold fields in Hf.
    assert (Hfo : focused b1 = focused b) by congruence.
    subst b2. rewrite Hfo.
    destruct (focused b) eqn:Efo;
      unfold set_selected_display_items, record_call;
      cbn [focused data_group current_data_item filter_id
           selected_display_items blocked panel_blocked panel_display_items
           view_index calls];
      repeat split; try congruence.
    intros _. apply last_last. }
  unfold selected_display_items_changed.
  destruct items as [|x [|y rest]].
  - destruct (G (data_group b) None (filter_id b) eq_refl eq_refl)
      as (G1 & G2 & G3 & G4 & G5 & G6 & G7).
    repeat split; try assumption.
    rewrite G5. destruct (current_data_item b); reflexivity.
  - destruct (G (data_group b) (Some x) (filter_id b) eq_refl eq_refl)
      as (G1 & G2 & G3 & G4 & G5 & G6 & G7).
    repeat split; try assumption.
    rewrite G5. destruct (differs (current_data_item b) (Some x)) eqn:E;
      [apply differs_same | exact E].
  - destruct (focused b) eqn:Efo;
      unfold set_selected_display_items, record_call;
      cbn [focused data_group current_data_item filter_id
           selected_display_items blocked panel_blocked panel_display_items
           view_index calls];
      rewrite ?app_nil_r; repeat split; try assumption; try discriminate.
    intros _. apply last_last.
Qed.

Lemma index_from_spec (d : option DataItem) (items : list DataItem) :
  forall n,
    match data_item_index_from n d items with
    | Some k =>
        n <= k
        /\ (exists x, nth_error items (k - n) = Some x
                      /\ differs d (Some x) = false)
        /\ forall j y, j < k - n -> nth_error items j = Some y ->
                       differs d (Some y) = true
    | None => forall y, In y items -> differs d (Some y) = true
    end.
Proof.
  induction items as [|x items IH]; intros n; simpl.
  - intros y [].
  - destruct (differs d (Some x)) eqn:E; simpl.
    + specialize (IH (S n)).
      destruct (data_item_index_from (S n) d items) as [k|].
      * destruct IH as (Hle & (z & Hz & Hd) & Hbefore).
        split; [lia|]. split.
        -- exists z. replace (k - n) with (S (k - S n)) by lia. auto.
        -- intros j y Hj Hy. destruct j as [|j]; simpl in Hy.
           ++ congruence.
           ++ apply (Hbefore j y); [lia | exact Hy].
      * intros y [<-|Hy]; auto.
    + split; [lia|]. split.
      * exists x. rewrite Nat.sub_diag. auto.
      * intros j y Hj. lia.
Qed.

(** X16: the panel selects the first display item of the data item.  When
    the selection of the controller changes, the listener of the panel
    looks for the data item among its display items: if it is there, the
    view that is shown (list for index 0 of the stack, grid otherwise) is
    told to select the first position that holds it and to make it
    visible; if it is not there, or there is no data item, the selection of
    that view is cleared. *)
Theorem panel_selects_first_match (d : option DataItem) (b : browser) :
  match data_item_index_from 0 d (panel_display_items b) with
  | Some k =>
      (exists x, nth_error (panel_display_items b) k = Some x
                 /\ differs d (Some x) = false)
      /\ (forall j y, j < k -> nth_error (panel_display_items b) j = Some y ->
                      differs d (Some y) = true)
      /\ calls (data_panel_selection_changed d b)
         = calls b ++ (if view_index b =? 0
                       then [ListSetSelectedIndex k; ListMakeSelectionVisible]
                       else [GridSetSelectedIndex k; GridMakeSelectionVisible])
  | None =>
      (forall y, In y (panel_display_items b) -> differs d (Some y) = true)
      /\ calls (data_panel_selection_changed d b)
         = calls b ++ (if view_index b =? 0 then [ListSelectionClear]
                       else [GridSelectionClear])
  end.
Proof.
  pose proof (index_from_spec d (panel_display_items b) 0) as H.
  unfold data_panel_selection_changed.
  destruct (data_item_index_from 0 d (panel_display_items b)) as [k|].
  - destruct H as (_ & Hx & Hbefore). rewrite Nat.sub_0_r in *.
    split; [exact Hx|]. split; [exact Hbefore|].
    destruct (view_index b =? 0); unfold record_call; cbn [calls];
      rewrite <- app_assoc; reflexivity.
  - split; [exact H|].
    destruct (view_index b =? 0); reflexivity.
Qed.

(** X14, on a new controller: a click on library row 1. *)
Lemma library_row_round_trip_witness :
  library_rows
    (calls_since new_browser
       (library_widget_selection_changed [(1, -1, 0)%Z] new_browser))
  = [1%Z]
  /\ filter_id (library_widget_selection_changed [(1, -1, 0)%Z] new_browser)
     = Some "temporary"%string.
Proof.
  destruct (library_row_round_trip new_browser 1 (-1) 0 [] eq_refl eq_refl)
    as (_ & _ & H1 & _ & _ & H2).
  split; [exact H2 | exact H1].
Defined.

(** X15, on a focused controller: a temporary data item is selected. *)
Lemma display_selection_sync_witness :
  filter_id
    (selected_display_items_changed [mkDataItem 3 "temporary"]
       (set_focused true new_browser))
  = Some "temporary"%string
  /\ last (calls (selected_display_items_changed [mkDataItem 3 "temporary"]
                    (set_focused true new_browser))) Periodic
     = NotifySelectedDataItem (Some (mkDataItem 3 "temporary")).
Proof.
  destruct (display_selection_sync (set_focused true new_browser)
              [mkDataItem 3 "temporary"] eq_refl)
    as (_ & _ & _ & _ & [_ H1] & H2).
  split; [exact H1 | exact (H2 eq_refl)].
Defined.

End DataBrowserControllerFacts.

(** * HistogramPanel: facts *)

Module HistogramPanelFacts.

Import HistogramPanel.

Lemma drawn_after {N} (l r : list (drawing N)) :
  skipn (length l) (l ++ r) = r.
Proof.
  induction l as [|a l IH]; simpl; auto.
Qed.

Ltac panel_cases :=
  repeat match goal with
  | p : panel _ |- _ => destruct p
  | E : surroundings _ |- _ => destruct E
  end.

Ltac since :=
  unfold drawn_since; cbn [drawings];
  repeat rewrite <- app_assoc;
  try rewrite drawn_after;
  try (rewrite <- (app_nil_r (A := drawing _)) at 1; rewrite drawn_after).

Lemma thread_part_make_histogram {N} (E : surroundings N) p :
  thread_part (make_histogram E p) = thread_part p.
Proof.
  unfold make_histogram.
  destruct (shown_data_item p) as [s|]; [|reflexivity].
  destruct (histogram_length E s) as [n|]; [|reflexivity]. cbn [option_map].
  destruct (histogram_dirty p && (0 <? n)); reflexivity.
Qed.

Lemma thread_part_make_adornments {N} (E : surroundings N) p :
  thread_part (make_adornments E p) = thread_part p.
Proof.
  unfold make_adornments.
  destruct (has_widget E && adornments_dirty p); reflexivity.
Qed.

Lemma thread_part_update_canvas {N} (E : surroundings N) p :
  thread_part (update_canvas E p) = thread_part p.
Proof.
  unfold update_canvas. destruct (has_widget E); reflexivity.
Qed.

Lemma thread_part_update_histogram {N} (E : surroundings N) p :
  thread_part (update_histogram E p) = thread_part p.
Proof.
  unfold update_histogram. destruct (has_widget E); [|reflexivity].
  rewrite thread_part_update_canvas, thread_part_make_adornments,
    thread_part_make_histogram. reflexivity.
Qed.

Lemma thread_part_set_display_limits {N} (E : surroundings N) l p :
  thread_part (set_display_limits E l p) = thread_part p.
Proof.
  unfold set_display_limits. rewrite thread_part_update_histogram. reflexivity.
Qed.

Lemma thread_part_size_changed {N} (E : surroundings N) w h p :
  thread_part (size_changed E w h p) = thread_part p.
Proof.
  unfold size_changed. destruct ((0 <? w)%Z && (0 <? h)%Z); [|reflexivity].
  rewrite thread_part_update_histogram. reflexivity.
Qed.

Lemma thread_part_mouse_double_clicked {N} (E : surroundings N) p :
  thread_part (mouse_double_clicked E p) = thread_part p.
Proof.
  unfold mouse_double_clicked.
  destruct (shown_data_item _); [change (thread_part (draw ?e ?q)) with (thread_part q)|];
    apply thread_part_set_display_limits.
Qed.

Lemma thread_part_mouse_pressed {N} (E : surroundings N) x p :
  thread_part (snd (mouse_pressed E x p)) = thread_part p.
Proof.
  unfold mouse_pressed. destruct (canvas_width E =? 0)%Z; [reflexivity|].
  cbn [snd]. rewrite thread_part_set_display_limits. reflexivity.
Qed.

Lemma thread_part_mouse_released {N} (E : surroundings N) p :
  thread_part (mouse_released E p) = thread_part p.
Proof.
  unfold mouse_released.
  destruct (shown_data_item _); [|reflexivity].
  destruct (_ && _); [|reflexivity].
  destruct (display_range E _). reflexivity.
Qed.

Lemma thread_part_mouse_position_changed {N} (E : surroundings N) x p :
  thread_part (snd (mouse_position_changed E x p)) = thread_part p.
Proof.
  unfold mouse_position_changed. destruct (pressed p); [|reflexivity].
  destruct (canvas_width E =? 0)%Z; [reflexivity|].
  destruct (start p); [|reflexivity].
  cbn [snd]. apply thread_part_set_display_limits.
Qed.

Lemma thread_part__set_data_item {N} (E : surroundings N) d p :
  thread_part (_set_data_item E d p) = thread_part p.
Proof.
  unfold _set_data_item. rewrite thread_part_update_histogram.
  destruct (negb _); reflexivity.
Qed.

Lemma thread_of_happen {N} (h : happening N) E p :
  has_thread p = true ->
  has_thread (snd (happen (E, p) h)) = true
  /\ thread_object (snd (happen (E, p) h)) =
       HistogramThread.do_calls (thread_call h) (thread_object p).
Proof.
  intros H.
  assert (G : forall q : panel N, thread_part q = thread_part p ->
                has_thread q = true /\ thread_object q = thread_object p).
  { intros q Hq. pose proof (f_equal fst Hq) as Hq1.
    pose proof (f_equal snd Hq) as Hq2. cbn [thread_part fst snd] in Hq1, Hq2.
    split; congruence. }
  destruct h as [d| |x|x| | |w hh|E']; cbn [happen snd thread_call].
  - unfold selected_data_item_changed. rewrite H. split; reflexivity.
  - pose proof (thread_part__set_data_item E
      (HistogramThread.data_item (thread_object p))
      (set_thread (HistogramThread.worker_pass (thread_object p)) (has_thread p) p)) as Hq.
    pose proof (f_equal fst Hq) as Hq1. pose proof (f_equal snd Hq) as Hq2.
    cbn [thread_part fst snd] in Hq1, Hq2.
    unfold worker_pass. rewrite Hq1, Hq2. cbn [set_thread has_thread thread_object].
    split; [exact H | reflexivity].
  - apply G, thread_part_mouse_pressed.
  - apply G, thread_part_mouse_position_changed.
  - apply G, thread_part_mouse_released.
  - apply G, thread_part_mouse_double_clicked.
  - apply G, thread_part_size_changed.
  - split; [exact H | reflexivity].
Qed.

Lemma do_calls_app calls1 calls2 st :
  HistogramThread.do_calls (calls1 ++ calls2) st =
  HistogramThread.do_calls calls2 (HistogramThread.do_calls calls1 st).
Proof.
  unfold HistogramThread.do_calls. apply fold_left_app.
Qed.

Lemma thread_of_happenings {N} (hs : list (happening N)) :
  forall E p,
  has_thread p = true ->
  has_thread (snd (happenings hs (E, p))) = true
  /\ thread_object (snd (happenings hs (E, p))) =
       HistogramThread.do_calls (flat_map (@thread_call N) hs) (thread_object p).
Proof.
  induction hs as [|h hs IH]; intros E p H.
  - split; [exact H | reflexivity].
  - destruct (thread_of_happen h E p H) as [H1 H2].
    unfold happenings in *. cbn [fold_left flat_map].
    destruct (happen (E, p) h) as [E1 p1] eqn:Eh. cbn [snd] in H1, H2.
    destruct (IH E1 p1 H1) as [H3 H4]. split; [exact H3|].
    rewrite H4, H2, do_calls_app. reflexivity.
Qed.

Lemma selected_after_close {N} (ds : list (option Subject)) :
  forall p : panel N,
  has_thread p = false ->
  fold_left (fun q d => selected_data_item_changed d q) ds p = p.
Proof.
  induction ds as [|d ds IH]; intros p H; cbn [fold_left]; auto.
  unfold selected_data_item_changed at 2. rewrite H. apply IH, H.
Qed.

(** X17: whatever happened to an open panel (selections, worker passes,
    mouse and size events, changes of its surroundings), the thread
    object has been asked exactly the calls of the selections and the
    passes; [close] of the panel closes it, so every reference taken on a
    data item has been given back, and selections that arrive after
    [close] (also the one [close] makes itself) reach nothing. *)
Theorem panel_close_releases_and_ignores {N} (hs : list (happening N))
    (ds : list (option Subject)) (E : surroundings N) (s : Subject) :
  let p := fold_left (fun q d => selected_data_item_changed d q) ds
             (close (snd (happenings hs (E, new_panel N)))) in
  has_thread p = false
  /\ thread_object p =
       HistogramThread.close
         (HistogramThread.do_calls (flat_map (@thread_call N) hs)
            HistogramThread.new_thread)
  /\ HistogramThread.add_refs s (HistogramThread.actions (thread_object p)) =
       HistogramThread.remove_refs s (HistogramThread.actions (thread_object p))
  /\ HistogramThread.held_refs s (HistogramThread.actions (thread_object p)) =
       Some 0.
Proof.
  intros p.
  destruct (thread_of_happenings hs E (new_panel N) eq_refl) as [H1 H2].
  assert (Hp : p = close (snd (happenings hs (E, new_panel N)))).
  { unfold p. apply selected_after_close. reflexivity. }
  assert (Ht : thread_object p =
       HistogramThread.close
         (HistogramThread.do_calls (flat_map (@thread_call N) hs)
            HistogramThread.new_thread)).
  { rewrite Hp. unfold close, selected_data_item_changed.
    cbn [has_thread set_thread draw thread_object]. rewrite H2. reflexivity. }
  split; [rewrite Hp; reflexivity|]. split; [exact Ht|].
  rewrite Ht.
  destruct (HistogramThreadProofs.balanced_close s _
    (HistogramThreadProofs.balanced_run s (flat_map (@thread_call N) hs) _
       (HistogramThreadProofs.balanced_init s))) as [G1 G2].
  split; assumption.
Qed.

Lemma repaints_same {N} (p : panel N) : repaints p p.
Proof.
  repeat split. exists []. rewrite app_nil_r. split; reflexivity.
Qed.

Lemma repaints_then {N} (p q r : panel N) :
  repaints p q -> repaints q r -> repaints p r.
Proof.
  intros (A1 & A2 & A3 & A4 & a & A5 & A6) (B1 & B2 & B3 & B4 & b & B5 & B6).
  repeat split; try congruence.
  exists (a ++ b). rewrite B5, A5, <- app_assoc, filter_app, A6, B6.
  split; reflexivity.
Qed.

Lemma repaints_draw {N} (e : drawing N) p :
  is_item_limits e = false -> repaints p (draw e p).
Proof.
  intros H. repeat split. exists [e]. split; [reflexivity|].
  cbn [filter]. rewrite H. reflexivity.
Qed.

Lemma repaints_flags {N} (h a : bool) (p : panel N) :
  repaints p (set_dirty_flags h a p).
Proof.
  repeat split. exists []. cbn [set_dirty_flags drawings].
  rewrite app_nil_r. split; reflexivity.
Qed.

Lemma repaints_update_histogram {N} (E : surroundings N) p :
  repaints p (update_histogram E p).
Proof.
  unfold update_histogram. destruct (has_widget E) eqn:Hw; [|apply repaints_same].
  apply repaints_then with (make_adornments E (make_histogram E p)).
  apply repaints_then with (make_histogram E p).
  - unfold make_histogram.
    destruct (shown_data_item p) as [s|]; [|apply repaints_same].
    destruct (histogram_length E s) as [n|]; [|apply repaints_same].
    cbn [option_map].
    destruct (histogram_dirty p && (0 <? n)); [|apply repaints_same].
    eapply repaints_then; [apply repaints_flags | apply repaints_draw; reflexivity].
  - unfold make_adornments.
    destruct (has_widget E && adornments_dirty _); [|apply repaints_same].
    eapply repaints_then; [apply repaints_flags | apply repaints_draw; reflexivity].
  - unfold update_canvas. rewrite Hw. apply repaints_draw. reflexivity.
Qed.

Lemma set_display_limits_fields {N} (E : surroundings N) l p :
  let p' := set_display_limits E l p in
  shown_data_item p' = shown_data_item p
  /\ display_limits p' = l
  /\ pressed p' = pressed p
  /\ start p' = start p
  /\ exists r, drawings p' = drawings p ++ r /\ filter (@is_item_limits N) r = [].
Proof.
  exact (repaints_update_histogram E
           (set_dirty_flags (histogram_dirty p) true (set_limits l p))).
Qed.

Lemma _set_data_item_fields {N} (E : surroundings N) d p :
  let p' := _set_data_item E d p in
  shown_data_item p' = d
  /\ display_limits p' =
       (if pressed p then display_limits p else (zero N, one N))
  /\ pressed p' = pressed p
  /\ start p' = start p
  /\ exists r, drawings p' = drawings p ++ r /\ filter (@is_item_limits N) r = [].
Proof.
  unfold _set_data_item.
  pose proof (repaints_update_histogram E
    (set_dirty_flags true true
       (if negb (pressed (set_shown d p))
        then set_limits (zero N, one N) (set_shown d p)
        else set_shown d p))) as H.
  destruct H as (H1 & H2 & H3 & H4 & H5).
  cbn [set_shown pressed] in *.
  destruct (pressed p) eqn:Hp; cbn [negb] in *;
    cbn [set_dirty_flags set_limits set_shown shown_data_item display_limits
         pressed start drawings] in H1, H2, H3, H4, H5;
    repeat split; try assumption; congruence.
Qed.

Lemma drawn_since_app {N} (p p' : panel N) r :
  drawings p' = drawings p ++ r -> drawn_since p p' = r.
Proof.
  intros H. unfold drawn_since. rewrite H. apply drawn_after.
Qed.

(** X18: a click that does not move.  Pressing the mouse at [x] puts both
    display limits at [x / width]; releasing it there leaves the range
    empty, so nothing is written to the data item, whatever data item is
    shown.  (The range is [a - a], which is not greater than zero.) *)
Theorem click_without_drag_writes_nothing {N} (E E' : surroundings N)
    (x : Z) (p : panel N)
    (Hrange : forall a : num N, less N (zero N) (minus N a a) = false)
    (Hwidth : canvas_width E <> 0%Z) :
  let q := quotient N x (canvas_width E) in
  let p1 := snd (mouse_pressed E x p) in
  let p2 := mouse_released E' p1 in
  fst (mouse_pressed E x p) = None
  /\ pressed p1 = true
  /\ display_limits p1 = (q, q)
  /\ pressed p2 = false
  /\ display_limits p2 = (q, q)
  /\ filter (@is_item_limits N) (drawn_since p p2) = [].
Proof.
  intros q p1 p2.
  assert (Hz : (canvas_width E =? 0)%Z = false) by (apply Z.eqb_neq; exact Hwidth).
  assert (H1 : mouse_pressed E x p =
               (None, set_display_limits E (q, q) (set_start q (set_pressed true p)))).
  { unfold mouse_pressed. rewrite Hz. reflexivity. }
  destruct (set_display_limits_fields E (q, q) (set_start q (set_pressed true p)))
    as (A1 & A2 & A3 & A4 & r & A5 & A6).
  assert (Hp1 : p1 = set_display_limits E (q, q) (set_start q (set_pressed true p))).
  { unfold p1. rewrite H1. reflexivity. }
  assert (Hp2 : p2 = set_pressed false p1).
  { unfold p2, mouse_released. cbn [set_pressed display_limits shown_data_item].
    rewrite Hp1, A2. cbn [fst snd]. rewrite Hrange. cbn [andb].
    destruct (shown_data_item _); reflexivity. }
  rewrite H1. cbn [fst]. split; [reflexivity|].
  rewrite Hp2. cbn [set_pressed pressed display_limits].
  rewrite Hp1, A2, A3. cbn [set_start set_pressed pressed].
  repeat split.
  rewrite (drawn_since_app p _ r); [exact A6|].
  cbn [set_pressed drawings]. rewrite A5. reflexivity.
Qed.

(** X19: a drag during which new data arrives.  The mouse is pressed at
    [x0]; the worker hands a data item to the panel ([_set_data_item]),
    which does not reset the display limits while the mouse is down; the
    mouse moves to [x1] and is released.  If the dragged range is between
    0 and 1, the data item that arrived gets display limits exactly once:
    its display range scaled by the smaller and the larger of the two
    positions. *)
Theorem drag_sets_item_limits {N} (E : surroundings N) (x0 x1 : Z)
    (s : Subject) (p : panel N)
    (Hwidth : canvas_width E <> 0%Z)
    (Hpositive : less N (zero N)
       (minus N (maximum N (quotient N x0 (canvas_width E)) (quotient N x1 (canvas_width E)))
                (minimum N (quotient N x0 (canvas_width E)) (quotient N x1 (canvas_width E))))
       = true)
    (Hbelow : less N
       (minus N (maximum N (quotient N x0 (canvas_width E)) (quotient N x1 (canvas_width E)))
                (minimum N (quotient N x0 (canvas_width E)) (quotient N x1 (canvas_width E))))
       (one N) = true) :
  let q0 := quotient N x0 (canvas_width E) in
  let q1 := quotient N x1 (canvas_width E) in
  let p1 := snd (mouse_pressed E x0 p) in
  let p2 := _set_data_item E (Some s) p1 in
  let p3 := snd (mouse_position_changed E x1 p2) in
  let p4 := mouse_released E p3 in
  display_limits p2 = (q0, q0)
  /\ fst (mouse_position_changed E x1 p2) = None
  /\ display_limits p4 = (minimum N q0 q1, maximum N q0 q1)
  /\ pressed p4 = false
  /\ filter (@is_item_limits N) (drawn_since p p4) =
       [ItemDisplayLimitsSet s
          (Some (plus N (fst (display_range E s))
                   (times N (minimum N q0 q1)
                      (minus N (snd (display_range E s)) (fst (display_range E s)))),
                 plus N (fst (display_range E s))
                   (times N (maximum N q0 q1)
                      (minus N (snd (display_range E s)) (fst (display_range E s))))))].
Proof.
  intros q0 q1 p1 p2 p3 p4.
  assert (Hz : (canvas_width E =? 0)%Z = false) by (apply Z.eqb_neq; exact Hwidth).
  assert (Hp1 : p1 = set_display_limits E (q0, q0) (set_start q0 (set_pressed true p))).
  { unfold p1, mouse_pressed. rewrite Hz. reflexivity. }
  destruct (set_display_limits_fields E (q0, q0) (set_start q0 (set_pressed true p)))
    as (A1 & A2 & A3 & A4 & r1 & A5 & A6).
  rewrite <- Hp1 in A1, A2, A3, A4, A5.
  cbn [set_start set_pressed pressed start shown_data_item drawings] in A1, A3, A4, A5.
  destruct (_set_data_item_fields E (Some s) p1) as (B1 & B2 & B3 & B4 & r2 & B5 & B6).
  fold p2 in B1, B2, B3, B4, B5. rewrite A3 in B2, B3. rewrite A2 in B2. rewrite A4 in B4.
  assert (Hm : mouse_position_changed E x1 p2 =
               (None, set_display_limits E (minimum N q0 q1, maximum N q0 q1) p2)).
  { unfold mouse_position_changed. rewrite B3, Hz, B4. reflexivity. }
  assert (Hp3 : p3 = set_display_limits E (minimum N q0 q1, maximum N q0 q1) p2).
  { unfold p3. rewrite Hm. reflexivity. }
  destruct (set_display_limits_fields E (minimum N q0 q1, maximum N q0 q1) p2)
    as (C1 & C2 & C3 & C4 & r3 & C5 & C6).
  rewrite <- Hp3 in C1, C2, C3, C4, C5. rewrite B1 in C1.
  assert (Hp4 : p4 = draw (ItemDisplayLimitsSet s
          (Some (plus N (fst (display_range E s))
                   (times N (minimum N q0 q1)
                      (minus N (snd (display_range E s)) (fst (display_range E s)))),
                 plus N (fst (display_range E s))
                   (times N (maximum N q0 q1)
                      (minus N (snd (display_range E s)) (fst (display_range E s)))))))
          (set_pressed false p3)).
  { unfold p4, mouse_released. cbn [set_pressed display_limits shown_data_item].
    rewrite C1, C2. cbn [fst snd]. fold q0 q1 in Hpositive, Hbelow.
    rewrite Hpositive, Hbelow. cbn [andb].
    destruct (display_range E s) as [dmin dmax]. reflexivity. }
  split; [exact B2|]. split; [rewrite Hm; reflexivity|].
  rewrite Hp4. cbn [draw set_pressed display_limits pressed].
  split; [exact C2|]. split; [reflexivity|].
  rewrite (drawn_since_app p _ (r1 ++ r2 ++ r3 ++ [ItemDisplayLimitsSet s
          (Some (plus N (fst (display_range E s))
                   (times N (minimum N q0 q1)
                      (minus N (snd (display_range E s)) (fst (display_range E s)))),
                 plus N (fst (display_range E s))
                   (times N (maximum N q0 q1)
                      (minus N (snd (display_range E s)) (fst (display_range E s))))))])).
  - repeat rewrite filter_app. rewrite A6, B6, C6. reflexivity.
  - cbn [draw set_pressed drawings]. rewrite C5, B5, A5.
    repeat rewrite <- app_assoc. reflexivity.
Qed.

(** What one [__update_histogram] does to the histogram layer. *)
Lemma update_histogram_layer {N} (E : surroundings N) (p : panel N) :
  has_widget E = true ->
  let due :=
    match shown_data_item p with
    | Some s =>
        match histogram_length E s with
        | Some n => histogram_dirty p && (0 <? n)
        | None => false
        end
    | None => false
    end in
  shown_data_item (update_histogram E p) = shown_data_item p
  /\ histogram_dirty (update_histogram E p) =
       (if due then false else histogram_dirty p)
  /\ filter (@is_histogram_drawn N) (drawn_since p (update_histogram E p)) =
       (if due then
          match shown_data_item p with
          | Some s => [HistogramDrawn s (canvas_width E) (canvas_height E)]
          | None => []
          end
        else []).
Proof.
  intros Hw.
  destruct p as [t ht sh dl pr st hd ad dr].
  unfold update_histogram, update_canvas, make_adornments, make_histogram.
  rewrite Hw.
  cbn [shown_data_item histogram_dirty adornments_dirty andb].
  destruct sh as [s|]; [destruct (histogram_length E s) as [n|]|];
    cbn [option_map]; try destruct (hd && (0 <? n)) eqn:Hd;
    destruct ad; unfold drawn_since;
    cbn [set_dirty_flags draw adornments_dirty histogram_dirty shown_data_item
         display_limits drawings thread_object has_thread pressed start];
    (split; [reflexivity|]); (split; [reflexivity|]);
    repeat rewrite <- app_assoc; rewrite drawn_after; reflexivity.
Qed.

(** X20: the histogram is drawn when its data is there, once.  A data
    item handed to the panel before it has histogram data is not drawn,
    and the layer stays marked dirty; the next update made when the data
    is there (here a double click) draws it, and an update after that
    does not draw it again. *)
Theorem histogram_drawn_once_data_is_there {N} (E1 E2 : surroundings N)
    (s : Subject) (n : nat) (p : panel N)
    (Hwidget1 : has_widget E1 = true)
    (Hwidget2 : has_widget E2 = true)
    (Hnone : histogram_length E1 s = None)
    (Hsome : histogram_length E2 s = Some n)
    (Hlength : 0 < n) :
  let p1 := _set_data_item E1 (Some s) p in
  let p2 := mouse_double_clicked E2 p1 in
  let p3 := mouse_double_clicked E2 p2 in
  filter (@is_histogram_drawn N) (drawn_since p p1) = []
  /\ histogram_dirty p1 = true
  /\ filter (@is_histogram_drawn N) (drawn_since p1 p2) =
       [HistogramDrawn s (canvas_width E2) (canvas_height E2)]
  /\ histogram_dirty p2 = false
  /\ filter (@is_histogram_drawn N) (drawn_since p2 p3) = [].
Proof.
  intros p1 p2 p3.
  assert (Hn : (0 <? n) = true) by (apply Nat.ltb_lt; exact Hlength).
  assert (D : forall q : panel N,
            shown_data_item q = Some s ->
            let q' := mouse_double_clicked E2 q in
            shown_data_item q' = Some s
            /\ histogram_dirty q' = false
            /\ filter (@is_histogram_drawn N) (drawn_since q q') =
                 (if histogram_dirty q
                  then [HistogramDrawn s (canvas_width E2) (canvas_height E2)]
                  else [])).
  { intros q Hq q'.
    pose proof (update_histogram_layer E2
      (set_dirty_flags (histogram_dirty q) true (set_limits (zero N, one N) q))
      Hwidget2) as H.
    destruct (repaints_update_histogram E2
      (set_dirty_flags (histogram_dirty q) true (set_limits (zero N, one N) q)))
      as (_ & _ & _ & _ & r & R1 & _).
    unfold drawn_since in H.
    cbn [set_dirty_flags set_limits shown_data_item histogram_dirty drawings]
      in H, R1.
    rewrite Hq, Hsome, Hn, andb_true_r in H.
    unfold q', mouse_double_clicked, set_display_limits, drawn_since.
    cbv zeta.
    set (u := update_histogram E2
      (set_dirty_flags (histogram_dirty q) true (set_limits (zero N, one N) q)))
      in *.
    destruct H as (H1 & H2 & H3).
    rewrite H1. cbn [draw shown_data_item histogram_dirty drawings].
    split; [exact H1|]. rewrite H2.
    split; [destruct (histogram_dirty q); reflexivity|].
    rewrite R1 in H3. rewrite drawn_after in H3.
    rewrite R1, <- app_assoc, drawn_after, filter_app, H3.
    destruct (histogram_dirty q); reflexivity. }
  pose proof (update_histogram_layer E1
    (set_dirty_flags true true
       (if negb (pressed (set_shown (Some s) p))
        then set_limits (zero N, one N) (set_shown (Some s) p)
        else set_shown (Some s) p)) Hwidget1) as H.
  fold (_set_data_item E1 (Some s) p) in H. fold p1 in H.
  assert (Hs : shown_data_item
     (set_dirty_flags true true
        (if negb (pressed (set_shown (Some s) p))
         then set_limits (zero N, one N) (set_shown (Some s) p)
         else set_shown (Some s) p)) = Some s).
  { destruct (negb _); reflexivity. }
  rewrite Hs, Hnone in H. destruct H as (H1 & H2 & H3).
  assert (Hd : drawn_since p p1 =
               drawn_since (set_dirty_flags true true
                 (if negb (pressed (set_shown (Some s) p))
                  then set_limits (zero N, one N) (set_shown (Some s) p)
                  else set_shown (Some s) p)) p1).
  { unfold drawn_since. destruct (negb _); reflexivity. }
  assert (Hdirty : histogram_dirty p1 = true).
  { rewrite H2. destruct (negb _); reflexivity. }
  destruct (D p1 H1) as (D1 & D2 & D3). fold p2 in D1, D2, D3.
  destruct (D p2 D1) as (F1 & F2 & F3). fold p3 in F1, F2, F3.
  rewrite Hdirty in D3. rewrite D2 in F3.
  rewrite Hd, H3. repeat split; assumption.
Qed.

(** X21: a press on a canvas of width zero.  [mouse_pressed] has set
    [pressed] when the division raises ZeroDivisionError, and nothing
    else: no limits are written and nothing is drawn.  The panel then
    takes a drag to be going on, so data handed to it no longer resets
    the display limits, until [mouse_released] has cleared the flag. *)
Theorem press_on_empty_canvas {N} (E E' : surroundings N) (x : Z)
    (d d' : option Subject) (p : panel N)
    (Hwidth : canvas_width E = 0%Z)
    (Hup : pressed p = false) :
  let p1 := snd (mouse_pressed E x p) in
  fst (mouse_pressed E x p) = Some ZeroDivisionError
  /\ p1 = set_pressed true p
  /\ display_limits (_set_data_item E' d p) = (zero N, one N)
  /\ display_limits (_set_data_item E' d p1) = display_limits p
  /\ display_limits (_set_data_item E' d' (mouse_released E' (_set_data_item E' d p1)))
       = (zero N, one N).
Proof.
  intros p1.
  assert (H1 : mouse_pressed E x p = (Some ZeroDivisionError, set_pressed true p)).
  { unfold mouse_pressed. rewrite Hwidth. reflexivity. }
  assert (Hp1 : p1 = set_pressed true p) by (unfold p1; rewrite H1; reflexivity).
  rewrite H1. cbn [fst]. split; [reflexivity|]. split; [exact Hp1|].
  destruct (_set_data_item_fields E' d p) as (_ & A2 & _).
  rewrite Hup in A2. split; [exact A2|].
  destruct (_set_data_item_fields E' d p1) as (B1 & B2 & B3 & _).
  rewrite Hp1 in B2, B3. cbn [set_pressed pressed display_limits] in B2, B3.
  rewrite <- Hp1 in B2, B3. split; [exact B2|].
  destruct (_set_data_item_fields E' d' (mouse_released E' (_set_data_item E' d p1)))
    as (_ & C2 & _).
  rewrite C2.
  assert (Hr : pressed (mouse_released E' (_set_data_item E' d p1)) = false).
  { unfold mouse_released. destruct (shown_data_item _); [|reflexivity].
    destruct (_ && _); [|reflexivity]. destruct (display_range E' _). reflexivity. }
  rewrite Hr. reflexivity.
Qed.

(** For floating point numbers [a - a] is zero or not a number, never
    greater than zero. *)
Lemma sub_self_not_positive (a : PrimFloat.float) :
  PrimFloat.ltb PrimFloat.zero (PrimFloat.sub a a) = false.
Proof.
  rewrite FloatAxioms.ltb_spec, FloatAxioms.sub_spec.
  change (FloatOps.Prim2SF PrimFloat.zero) with (SpecFloat.S754_zero false).
  destruct (FloatOps.Prim2SF a) as [s|s| |s m e];
    unfold FloatAxioms.SF64sub, SpecFloat.SFsub.
  - destruct s; reflexivity.
  - destruct s; reflexivity.
  - reflexivity.
  - cbv zeta.
    generalize (SpecFloat.cond_Zopp s
      (Z.pos (fst (SpecFloat.shl_align m e (IntDef.Z.min e e))))).
    intros z. change (IntDef.Z.sub z z) with (Z.sub z z).
    rewrite Z.sub_diag. reflexivity.
Qed.

Lemma click_without_drag_writes_nothing_witness :
  fst (mouse_pressed canvas_200 50 (new_panel floats)) = None
  /\ display_limits (mouse_released canvas_200
       (snd (mouse_pressed canvas_200 50 (new_panel floats)))) =
     (quotient floats 50 200, quotient floats 50 200).
Proof.
  destruct (click_without_drag_writes_nothing canvas_200 canvas_200 50
              (new_panel floats) sub_self_not_positive
              ltac:(vm_compute; discriminate))
    as (H1 & _ & _ & _ & H5 & _).
  split; [exact H1 | exact H5].
Defined.

Lemma drag_sets_item_limits_witness :
  filter (@is_item_limits floats)
    (drawn_since (new_panel floats)
       (mouse_released canvas_200
          (snd (mouse_position_changed canvas_200 150
             (_set_data_item canvas_200 (Some 7)
                (snd (mouse_pressed canvas_200 50 (new_panel floats)))))))) =
  [@ItemDisplayLimitsSet floats 7 (Some (float_of_Z 25, float_of_Z 75))].
Proof.
  destruct (drag_sets_item_limits canvas_200 50 150 7 (new_panel floats)
              ltac:(vm_compute; discriminate) ltac:(vm_compute; reflexivity)
              ltac:(vm_compute; reflexivity))
    as (_ & _ & _ & _ & H).
  exact H.
Defined.

Lemma histogram_drawn_once_data_is_there_witness :
  filter (@is_histogram_drawn floats)
    (drawn_since (_set_data_item canvas_200_no_data (Some 7) (new_panel floats))
       (mouse_double_clicked canvas_200
          (_set_data_item canvas_200_no_data (Some 7) (new_panel floats)))) =
  [@HistogramDrawn floats 7 200 100].
Proof.
  destruct (histogram_drawn_once_data_is_there canvas_200_no_data canvas_200 7 256
              (new_panel floats) eq_refl eq_refl eq_refl eq_refl
              ltac:(lia))
    as (_ & _ & H & _).
  exact H.
Defined.

Lemma press_on_empty_canvas_witness :
  fst (mouse_pressed canvas_empty 0 (new_panel floats)) = Some ZeroDivisionError.
Proof.
  destruct (press_on_empty_canvas canvas_empty canvas_200 0 (Some 7) None
              (new_panel floats) eq_refl eq_refl)
    as (H & _).
  exact H.
Defined.

End HistogramPanelFacts.

(** * DataPanel: facts *)

Module DataPanelFacts.

Import DataPanel.

Lemma inserted_items d i c items :
  DataListController.aligned c ->
  DataListController.display_items c = Some items ->
  exists c',
    DataListController.display_item_inserted d i c = DataListController.Done c'
    /\ DataListController.aligned c'
    /\ DataListController.display_items c' = Some (PyList.insert items i d)
    /\ DataListController.selection_listener c' = DataListController.selection_listener c.
Proof.
  intros H Hi.
  destruct (DataListControllerFacts.aligned_inserted d i c H) as (c' & E & A).
  exists c'. split; [exact E|]. split; [exact A|].
  destruct c as [[its|] [ls|] ch sl n eff]; cbn in H, Hi; try tauto;
    try discriminate.
  injection Hi as ->.
  unfold DataListController.display_item_inserted in E. cbn in E. injection E as <-.
  split; reflexivity.
Qed.

Lemma removed_items i c items :
  DataListController.aligned c ->
  DataListController.display_items c = Some items ->
  (exists c' items',
     DataListController.display_item_removed i c = DataListController.Done c'
     /\ DataListController.aligned c'
     /\ PyList.delete items i = Some items'
     /\ DataListController.display_items c' = Some items'
     /\ DataListController.selection_listener c' = DataListController.selection_listener c)
  \/ (DataListController.display_item_removed i c
      = DataListController.Failed DataListController.ListIndexError c
      /\ PyList.position (length items) i = None).
Proof.
  intros H Hi.
  destruct (DataListControllerFacts.aligned_removed i c H)
    as [(c' & E & A)|(E & its & Hits & Hp)].
  - left. exists c'.
    destruct c as [[its|] [ls|] ch sl n eff]; cbn in H, Hi; try tauto;
      try discriminate.
    injection Hi as ->. pose proof E as E0.
    unfold DataListController.display_item_removed in E.
    cbn [DataListController.update_listeners DataListController.display_items] in E.
    destruct (PyList.item ls i) as [l|]; [|destruct (PyList.delete ls i); discriminate].
    destruct (PyList.delete ls i) as [ls'|]; [|discriminate].
    destruct (PyList.delete items i) as [items'|]; [|discriminate].
    exists items'. injection E as <-.
    split; [exact E0|]. split; [exact A|]. repeat split.
  - right. split; [exact E|]. rewrite Hi in Hits. injection Hits as ->. exact Hp.
Qed.

Lemma in_step_new : in_step new_data_panel.
Proof.
  repeat split; try (intros id; reflexivity).
  exists []. repeat split. 
Qed.

Lemma times_item_closed_snoc d l e :
  times_item_closed d (l ++ [e])
  = times_item_closed d l + (if is_close_of_item d e then 1 else 0).
Proof.
  unfold times_item_closed. rewrite filter_app, length_app. simpl.
  destruct (is_close_of_item d e); reflexivity.
Qed.

Ltac panel_fields :=
  cbn [item_list data_list_controller has_list_controller
       data_grid_controller has_grid_controller grid_closed made panel_log
       set_item_list set_list_controller set_grid_controller set_grid_closed
       logged panel_after and_then fst snd].

Ltac panel_fields_everywhere :=
  cbn [item_list data_list_controller has_list_controller
       data_grid_controller has_grid_controller grid_closed made panel_log
       set_item_list set_list_controller set_grid_controller set_grid_closed
       logged panel_after and_then fst snd] in *.

Lemma in_step_inserted data_item i p :
  in_step p ->
  exists p', data_item_inserted data_item i p = Fine p'
             /\ in_step p'
             /\ made p' = S (made p).
Proof.
  intros (H1 & H2 & H3 & H4 & H5 & H6 & H7 & items & I1 & I2 & I3 & I4).
  destruct p as [il lc hl gc hg gcl n lg]. panel_fields_everywhere. subst.
  destruct (inserted_items n i lc items H6 I2) as (lc' & L1 & L2 & L3 & L4).
  destruct (inserted_items n i gc items H7 I3) as (gc' & G1 & G2 & G3 & G4).
  unfold data_item_inserted, make_display_item, on_list_controller,
    on_grid_controller.
  panel_fields. rewrite L1. panel_fields. rewrite G1. panel_fields.
  eexists. split; [reflexivity|]. split; [|reflexivity].
  unfold in_step. panel_fields.
  split; [reflexivity|]. split; [reflexivity|]. split; [reflexivity|].
  split; [congruence|]. split; [congruence|].
  split; [exact L2|]. split; [exact G2|].
  exists (PyList.insert items i n).
  split; [reflexivity|]. split; [exact L3|]. split; [exact G3|].
  intros d. rewrite PyListFacts.filter_insert, times_item_closed_snoc.
  cbn [is_close_of_item]. specialize (I4 d). unfold is_item at 2.
  destruct (Nat.eqb_spec n d) as [->|Hne].
  - rewrite Nat.ltb_irrefl in I4.
    replace (d <? S d) with true by (symmetry; apply Nat.ltb_lt; lia). lia.
  - destruct (Nat.ltb_spec d n); destruct (Nat.ltb_spec d (S n)); lia.
Qed.

Lemma never_closed d l :
  times_item_closed d l = 0 -> existsb (is_close_of_item d) l = false.
Proof.
  unfold times_item_closed. induction l as [|e l IH]; simpl; [reflexivity|].
  destruct (is_close_of_item d e); simpl; [discriminate|exact IH].
Qed.

Lemma in_step_removed i p :
  in_step p ->
  (exists p' d items items',
     data_item_removed i p = Fine p'
     /\ in_step p'
     /\ made p' = made p
     /\ item_list p = Some items
     /\ PyList.item items i = Some d
     /\ PyList.delete items i = Some items'
     /\ item_list p' = Some items'
     /\ panel_log p' = panel_log p ++ [DisplayItemClosed d])
  \/ (data_item_removed i p = Raised (InController DataListController.ListIndexError) p
      /\ exists items, item_list p = Some items
                       /\ PyList.position (length items) i = None).
Proof.
  intros (H1 & H2 & H3 & H4 & H5 & H6 & H7 & items & I1 & I2 & I3 & I4).
  destruct p as [il lc hl gc hg gcl n lg]. panel_fields_everywhere. subst.
  unfold data_item_removed, on_list_controller, on_grid_controller.
  panel_fields.
  destruct (removed_items i lc items H6 I2)
    as [(lc' & items' & L1 & L2 & L3 & L4 & L5)|(L1 & L2)].
  - destruct (removed_items i gc items H7 I3)
      as [(gc' & items2 & G1 & G2 & G3 & G4 & G5)|(G1 & G2)].
    + left. rewrite L3 in G3. injection G3 as <-.
      rewrite L1. panel_fields. rewrite G1. panel_fields.
      pose proof (PyListFacts.item_delete _ items i) as Hd.
      rewrite L3 in Hd.
      destruct (PyList.item items i) as [d|] eqn:Hitem; [|elim Hd].
      destruct Hd as [_ Hf].
      assert (Hopen : times_item_closed d lg = 0).
      { specialize (I4 d). specialize (Hf (is_item d)).
        unfold is_item in Hf at 3. rewrite Nat.eqb_refl in Hf.
        destruct (d <? n); lia. }
      unfold close_display_item. panel_fields.
      rewrite (never_closed d lg Hopen). panel_fields. rewrite L3.
      eexists. exists d, items, items'.
      split; [reflexivity|]. panel_fields.
      split; [|repeat split; try reflexivity; assumption].
      unfold in_step. panel_fields.
      split; [reflexivity|]. split; [reflexivity|]. split; [reflexivity|].
      split; [congruence|]. split; [congruence|].
      split; [exact L2|]. split; [exact G2|].
      exists items'.
      split; [reflexivity|]. split; [exact L4|]. split; [exact G4|].
      intros x. rewrite times_item_closed_snoc. cbn [is_close_of_item].
      specialize (I4 x). specialize (Hf (is_item x)).
      unfold is_item in Hf at 3. lia.
    + exfalso. unfold PyList.delete in L3. rewrite G2 in L3. discriminate.
  - right. rewrite L1. split; [reflexivity|].
    exists items. split; [reflexivity | exact L2].
Qed.

Lemma in_step_notify n p : in_step p -> in_step (notify p n).
Proof.
  intros H. destruct n as [data_item i|i]; cbn [notify].
  - destruct (in_step_inserted data_item i p H) as (p' & -> & H' & _). exact H'.
  - destruct (in_step_removed i p H)
      as [(p' & d & items & items' & -> & H' & _)|(-> & _)]; assumption.
Qed.

Lemma in_step_notify_all ns : forall p, in_step p -> in_step (notify_all ns p).
Proof.
  induction ns as [|n ns IH]; intros p H; cbn [notify_all fold_left];
    [exact H|].
  apply IH, in_step_notify, H.
Qed.







(** X24: a removal is done in all three lists or in none.  After any
    sequence of such tasks, [data_item_removed] with any index either
    runs through, and then has removed the display item at that index
    from the panel's list and from both controllers' lists and closed
    exactly that display item; or it raises the IndexError of the list
    controller's first statement, and then nothing at all has changed. *)
Theorem removal_all_or_nothing (ns : list notice) (i : Z) :
  let p := notify_all ns new_data_panel in
  (exists p' d items items',
     data_item_removed i p = Fine p'
     /\ item_list p = Some items
     /\ PyList.item items i = Some d
     /\ PyList.delete items i = Some items'
     /\ item_list p' = Some items'
     /\ DataListController.display_items (data_list_controller p') = Some items'
     /\ DataListController.display_items (data_grid_controller p') = Some items'
     /\ panel_log p' = panel_log p ++ [DisplayItemClosed d])
  \/ (data_item_removed i p = Raised (InController DataListController.ListIndexError) p
      /\ exists items, item_list p = Some items
                       /\ PyList.position (length items) i = None).
Proof.
  intros p.
  destruct (in_step_removed i p (in_step_notify_all ns new_data_panel in_step_new))
    as [(p' & d & items & items' & E & H' & _ & A1 & A2 & A3 & A4 & A5)|H].
  - left. exists p', d, items, items'.
    destruct H' as (_ & _ & _ & _ & _ & _ & _ & its & B1 & B2 & B3 & _).
    rewrite A4 in B1. injection B1 as <-.
    repeat split; assumption.
  - right. exact H.
Qed.

End DataPanelFacts.
